(** * nightrelcalc: the night-release calculator, [compute] and its helpers

    A shallow embedding of the core of [main.go] (the function [compute],
    [calcNextDayStartAbs] and the helpers under "helpers"), with the
    properties of the specification stated over it.

    Conventions of the embedding:
    - Go's [int] is the 64-bit signed integer of the 64-bit targets: a [Z]
      kept in [-2^63, 2^63) by [wrap] after every [+], [-], [*] and unary
      minus; [/] and [%] truncate toward zero ([Z.quot], [Z.rem]).
    - Go's [float64] is IEEE 754 binary64, the [spec_float] of the
      standard library at precision 53 and maximal exponent 1024.
    - Go's [string] is a sequence of bytes: [string].
    - A pair [(value, error)] is the sum type [result].
    - The conversion [int(x)] of a float64 that no [int] represents (a NaN,
      an infinity, a value beyond the range) is implementation-dependent in
      Go: the embedding takes it from a [Platform], and the theorems hold
      for every platform. *)

From Stdlib Require Import ZArith Lia Bool List Ascii String.
From Stdlib Require Import DecimalString DecimalPos DecimalZ.
From Stdlib Require Import Floats.SpecFloat.
Import ListNotations.

Local Open Scope string_scope.
Local Open Scope Z_scope.

(** ** Results with errors *)

Inductive result (A E : Type) : Type :=
| Ok (a : A)
| Err (e : E).
Arguments Ok {A E} a.
Arguments Err {A E} e.

(** The errors of the program, one constructor for each [fmt.Errorf] call
    of [parseHHMMToMin] and [compute]. *)
Inductive error : Type :=
| ErrInvalidTime (s : string)     (* "invalid time %q, expected HH:MM" *)
| ErrLength                       (* "length must be > 0" *)
| ErrNormalStart (cause : error)  (* "invalid --normal-start: %w" *)
| ErrNormalEnd (cause : error)    (* "invalid --normal-end: %w" *)
| ErrNormalDay                    (* "normal day must be within same day and end after start ..." *)
| ErrMinRest                      (* "min rest must be > 0" *)
| ErrMaxOvertime.                 (* "max overtime must be >= 0" *)

(** ** Machine integers *)

Module Int.

Definition min_int : Z := - 2 ^ 63.
Definition max_int : Z := 2 ^ 63 - 1.

Definition in_range (z : Z) : bool := (min_int <=? z) && (z <=? max_int).

Definition wrap (z : Z) : Z := (z + 2 ^ 63) mod 2 ^ 64 - 2 ^ 63.

Definition add (a b : Z) : Z := wrap (a + b).
Definition sub (a b : Z) : Z := wrap (a - b).
Definition mul (a b : Z) : Z := wrap (a * b).
Definition neg (a : Z) : Z := wrap (- a).
(** [a / b] and [a % b] of Go, for a divisor that is not zero (the program
    divides by the constants 60 and 1440 only; [floorDiv] tests for zero). *)
Definition quot (a b : Z) : Z := wrap (Z.quot a b).
Definition rem (a b : Z) : Z := Z.rem a b.

End Int.

(** ** Strings: the functions of [strings], [strconv] and [fmt] the program calls *)

Definition is_digit (c : ascii) : bool :=
  let n := Z.of_N (N_of_ascii c) in (48 <=? n) && (n <=? 57).

Definition digit_value (c : ascii) : Z := Z.of_N (N_of_ascii c) - 48.

(** [%d]. *)
Definition fmt_d (n : Z) : string := NilZero.string_of_int (Z.to_int n).

(** [%02d]: at least two characters, padded with zeros on the left. *)
Definition fmt_02d (n : Z) : string :=
  if (0 <=? n) && (n <? 10) then "0" ++ fmt_d n else fmt_d n.

Fixpoint digits_value (s : string) (acc : Z) : option Z :=
  match s with
  | EmptyString => Some acc
  | String c r =>
      if is_digit c then digits_value r (acc * 10 + digit_value c) else None
  end.

(** [strconv.Atoi]: an optional sign, then one decimal digit or more; a value
    outside [int] is an error too. [None] stands for a non-nil error. *)
Definition Atoi (s : string) : option Z :=
  let '(negative, body) :=
    match s with
    | String "-" r => (true, r)
    | String "+" r => (false, r)
    | _ => (false, s)
    end in
  match body with
  | EmptyString => None
  | _ =>
      match digits_value body 0 with
      | Some v =>
          let n := if negative then - v else v in
          if Int.in_range n then Some n else None
      | None => None
      end
  end.

(** [strings.Split(s, ":")]. *)
Fixpoint split_colon (s : string) : list string :=
  match s with
  | EmptyString => [EmptyString]
  | String c r =>
      if Ascii.eqb c ":" then EmptyString :: split_colon r
      else
        match split_colon r with
        | p :: ps => String c p :: ps
        | [] => [String c EmptyString]
        end
  end.

(** White space of [unicode.IsSpace]: the six ASCII characters, and the
    UTF-8 encodings of U+0085, U+00A0, U+1680, U+2000..U+200A, U+2028,
    U+2029, U+202F, U+205F and U+3000. *)
Definition ascii_space (c : ascii) : bool :=
  let n := N_of_ascii c in
  ((9 <=? n) && (n <=? 13) || (n =? 32))%N.

Definition byte_is (c : ascii) (n : N) : bool := (N_of_ascii c =? n)%N.

Definition space3 (a b c : ascii) : bool :=
  let nc := N_of_ascii c in
  (byte_is a 225 && byte_is b 154 && byte_is c 128)
  || (byte_is a 226 && byte_is b 128
      && ((128 <=? nc) && (nc <=? 138) || (nc =? 168) || (nc =? 169) || (nc =? 175))%N)
  || (byte_is a 226 && byte_is b 129 && byte_is c 159)
  || (byte_is a 227 && byte_is b 128 && byte_is c 128).

Definition space2 (a b : ascii) : bool :=
  byte_is a 194 && (byte_is b 133 || byte_is b 160).

Fixpoint trim_left (s : string) : string :=
  match s with
  | String a r =>
      if ascii_space a then trim_left r
      else
        match r with
        | String b r2 =>
            if space2 a b then trim_left r2
            else
              match r2 with
              | String c r3 => if space3 a b c then trim_left r3 else s
              | EmptyString => s
              end
        | EmptyString => s
        end
  | EmptyString => s
  end.

Fixpoint rev_string (s acc : string) : string :=
  match s with
  | EmptyString => acc
  | String c r => rev_string r (String c acc)
  end.

(** The same on the reversed string: a character's bytes come last first. *)
Fixpoint trim_left_rev (s : string) : string :=
  match s with
  | String a r =>
      if ascii_space a then trim_left_rev r
      else
        match r with
        | String b r2 =>
            if space2 b a then trim_left_rev r2
            else
              match r2 with
              | String c r3 => if space3 c b a then trim_left_rev r3 else s
              | EmptyString => s
              end
        | EmptyString => s
        end
  | EmptyString => s
  end.

(** [strings.TrimSpace]. *)
Definition TrimSpace (s : string) : string :=
  rev_string (trim_left_rev (rev_string (trim_left s) EmptyString)) EmptyString.

(** ** Helpers of [main.go] *)

Definition minInt (a b : Z) : Z := if a <? b then a else b.

Definition maxInt (a b : Z) : Z := if a >? b then a else b.

Definition floorDiv (a b : Z) : Z :=
  if b =? 0 then 0
  else
    let q := Int.quot a b in
    let r := Int.rem a b in
    if negb (r =? 0) && negb (Bool.eqb (r >? 0) (b >? 0)) then Int.sub q 1
    else q.

(** [mod] of the source ([mod] is a keyword of the integer notations). *)
Definition mod_ (a b : Z) : Z :=
  let m := Int.rem a b in
  if m <? 0 then Int.add m b else m.

Definition fmtClock (min : Z) : string :=
  let days := floorDiv min 1440 in
  let min := mod_ min 1440 in
  let h := Int.quot min 60 in
  let m := Int.rem min 60 in
  if days =? 0 then fmt_02d h ++ ":" ++ fmt_02d m
  else fmt_02d h ++ ":" ++ fmt_02d m ++ " (+" ++ fmt_d days ++ "d)".

Definition fmtRange (aMin bMin : Z) : string :=
  fmtClock aMin ++ " -> " ++ fmtClock bMin.

Definition fmtHM (min : Z) : string :=
  let min := if min <? 0 then Int.neg min else min in
  let h := Int.quot min 60 in
  let m := Int.rem min 60 in
  fmt_d h ++ "h" ++ fmt_02d m ++ "m".

Definition parseHHMMToMin (s : string) : result Z error :=
  let t := TrimSpace s in
  let parts := split_colon t in
  match parts with
  | [p0; p1] =>
      match Atoi p0 with
      | None => Err (ErrInvalidTime s)
      | Some h =>
          if (h <? 0) || (h >? 23) then Err (ErrInvalidTime s)
          else
            match Atoi p1 with
            | None => Err (ErrInvalidTime s)
            | Some m =>
                if (m <? 0) || (m >? 59) then Err (ErrInvalidTime s)
                else Ok (Int.add (Int.mul h 60) m)
            end
      end
  | _ => Err (ErrInvalidTime s)
  end.

(** ** Floating point *)

Definition float64 : Type := spec_float.

Definition prec : Z := 53.
Definition emax : Z := 1024.

Definition Fmul : float64 -> float64 -> float64 := SFmul prec emax.
Definition Fsub : float64 -> float64 -> float64 := SFsub prec emax.

(** The float64 value of an integer constant. *)
Definition Fconst (n : Z) : float64 := binary_normalize prec emax n 0 false.

(** A finite float is [Fnum x * 2 ^ Fexp x]. *)
Definition Fnum (x : float64) : Z :=
  match x with
  | S754_finite s m _ => cond_Zopp s (Zpos m)
  | _ => 0
  end.

Definition Fexp (x : float64) : Z :=
  match x with
  | S754_finite _ _ e => e
  | _ => 0
  end.

(** The comparison of IEEE 754, by the values: a NaN is unordered, the two
    zeros are equal. *)
Definition Fcompare (x y : float64) : option comparison :=
  match x, y with
  | S754_nan, _ | _, S754_nan => None
  | S754_infinity s1, S754_infinity s2 =>
      Some (match s1, s2 with
            | true, false => Lt
            | false, true => Gt
            | _, _ => Eq
            end)
  | S754_infinity s, _ => Some (if s then Lt else Gt)
  | _, S754_infinity s => Some (if s then Gt else Lt)
  | _, _ =>
      let e := Z.min (Fexp x) (Fexp y) in
      Some (Fnum x * 2 ^ (Fexp x - e) ?= Fnum y * 2 ^ (Fexp y - e))
  end.

(** [x < y] and [x <= y] of Go ([x > y] is [Flt y x], [x >= y] is [Fle y x]). *)
Definition Flt (x y : float64) : bool :=
  match Fcompare x y with Some Lt => true | _ => false end.

Definition Fle (x y : float64) : bool :=
  match Fcompare x y with Some (Lt | Eq) => true | _ => false end.

(** [math.Round]: the nearest integer, halves away from zero; zeros,
    infinities and NaN are returned as they are, and the sign is kept. *)
Definition Round (x : float64) : float64 :=
  match x with
  | S754_finite s m e =>
      if 0 <=? e then x
      else
        let d := 2 ^ (- e) in
        let q := Zpos m / d in
        let r := Zpos m mod d in
        let n := if d <=? 2 * r then q + 1 else q in
        binary_normalize prec emax (cond_Zopp s n) 0 s
  | _ => x
  end.

(** The conversion [int(x)] of a float64 truncates toward zero. When the
    truncated value is not an [int] (and for the infinities and NaN) the Go
    specification leaves the result to the implementation: it is what the
    platform gives. *)
Class Platform : Type :=
  { int_of_unrepresentable : float64 -> Z }.

(** amd64: the "integer indefinite" value of CVTTSD2SQ. *)
Definition amd64 : Platform :=
  {| int_of_unrepresentable := fun _ => Int.min_int |}.

(** arm64: FCVTZS saturates, and a NaN gives zero. *)
Definition arm64 : Platform :=
  {| int_of_unrepresentable := fun x =>
       match x with
       | S754_nan => 0
       | S754_infinity s | S754_finite s _ _ | S754_zero s =>
           if s then Int.min_int else Int.max_int
       end |}.

Definition Ftrunc (x : float64) : Z :=
  match x with
  | S754_finite s m e =>
      cond_Zopp s (if 0 <=? e then Zpos m * 2 ^ e else Zpos m / 2 ^ (- e))
  | _ => 0
  end.

Definition int_of_float `{Platform} (x : float64) : Z :=
  match x with
  | S754_zero _ => 0
  | S754_finite _ _ _ =>
      if Int.in_range (Ftrunc x) then Ftrunc x
      else Int.wrap (int_of_unrepresentable x)
  | _ => Int.wrap (int_of_unrepresentable x)
  end.

(** [%.2f]: the decimal expansion of the exact value with two digits after
    the point, rounded to nearest, a tie to the even digit. *)
Definition fmt_2f (x : float64) : string :=
  match x with
  | S754_nan => "NaN"
  | S754_infinity s => if s then "-Inf" else "+Inf"
  | S754_zero s => (if s then "-" else EmptyString) ++ "0.00"
  | S754_finite s m e =>
      let n :=
        if 0 <=? e then Zpos m * 2 ^ e * 100
        else
          let d := 2 ^ (- e) in
          let q := Zpos m * 100 / d in
          let r := (Zpos m * 100) mod d in
          match 2 * r ?= d with
          | Lt => q
          | Gt => q + 1
          | Eq => if Z.even q then q else q + 1
          end in
      (if s then "-" else EmptyString) ++ fmt_d (n / 100) ++ "." ++ fmt_02d (n mod 100)
  end.

(** ** The calculator *)

Record Scenario : Type :=
  { Title : string;
    WorkHours : string;
    ReleaseWindow : string;
    TotalWork : string;
    ReleaseIncluded : string;
    Overtime : string;
    NextDayHours : string }.

Record CalcResult : Type :=
  { ReleaseStart : string;
    ReleaseEnd : string;
    ReleaseLen : string;
    FullDay : string;
    NormalStart : string;
    NormalEnd : string;
    NormalLen : string;
    MinRest : string;
    MaxOvertime : string;
    Scenarios : list Scenario }.

Section Core.

Context `{Platform}.

Definition hoursToMin (h : float64) : Z :=
  int_of_float (Round (Fmul h (Fconst 60))).

Definition calcNextDayStartAbs (releaseEndAbs normalStartOfDayMin minRestMin : Z) : Z :=
  let earliest := Int.add releaseEndAbs minRestMin in
  let reEndDay := floorDiv releaseEndAbs 1440 in
  let nextDay := Int.mul (Int.add reEndDay 1) 1440 in
  let baseline := Int.add nextDay normalStartOfDayMin in
  maxInt baseline earliest.

Definition compute (startStr : string) (lengthH combineH fullH : float64)
    (normalStartStr normalEndStr : string) (minRestH maxOvertimeH : float64)
  : result CalcResult error :=
  match parseHHMMToMin startStr with
  | Err err => Err err
  | Ok rsMin =>
  if Fle lengthH (Fconst 0) then Err ErrLength else
  match parseHHMMToMin normalStartStr with
  | Err err => Err (ErrNormalStart err)
  | Ok nsMin =>
  match parseHHMMToMin normalEndStr with
  | Err err => Err (ErrNormalEnd err)
  | Ok neMin =>
  let normalLenMin := Int.sub neMin nsMin in
  if normalLenMin <=? 0 then Err ErrNormalDay else
  let minRestMin := hoursToMin minRestH in
  if minRestMin <=? 0 then Err ErrMinRest else
  let maxOvertimeMin := hoursToMin maxOvertimeH in
  if maxOvertimeMin <? 0 then Err ErrMaxOvertime else
  let releaseLenMin := hoursToMin lengthH in
  let fullDayMin :=
    if Flt (Fconst 0) fullH then hoursToMin fullH else normalLenMin in
  let reEndAbs := Int.add rsMin releaseLenMin in
  let releaseWindow := fmtRange rsMin reEndAbs in
  let nextStart := calcNextDayStartAbs reEndAbs nsMin minRestMin in
  let nextEnd := Int.add nextStart normalLenMin in
  let nextDayHours := fmtRange nextStart nextEnd in
  (* 1) Full day (release included as much as possible) *)
  let requiredIncluded := maxInt 0 (Int.sub releaseLenMin maxOvertimeMin) in
  let inc := minInt fullDayMin (maxInt requiredIncluded (minInt releaseLenMin fullDayMin)) in
  let pre := Int.sub fullDayMin inc in
  let workStart := Int.sub rsMin pre in
  let workEnd := Int.add rsMin inc in
  let otMin := maxInt (Int.sub releaseLenMin inc) 0 in
  let s1 :=
    {| Title := "Full day (release included) - No Overtime";
       WorkHours := fmtRange workStart workEnd;
       ReleaseWindow := releaseWindow;
       TotalWork := fmtRange workStart reEndAbs;
       ReleaseIncluded := fmtHM inc;
       Overtime := fmtHM otMin;
       NextDayHours := nextDayHours |} in
  (* 2) Full day + release (all overtime) *)
  let ot2 := releaseLenMin in
  let workStart2 := Int.sub rsMin fullDayMin in
  let workEnd2 := rsMin in
  let '(workStart2, workEnd2, ot2) :=
    if ot2 >? maxOvertimeMin then
      let workEnd2 := Int.sub reEndAbs maxOvertimeMin in
      let workStart2 := Int.sub workEnd2 fullDayMin in
      let ot2 := maxOvertimeMin in
      (workStart2, workEnd2, ot2)
    else (workStart2, workEnd2, ot2) in
  let s2 :=
    {| Title := "Full day + release (Overtime)";
       WorkHours := fmtRange workStart2 workEnd2;
       ReleaseWindow := releaseWindow;
       TotalWork := fmtRange workStart2 reEndAbs;
       ReleaseIncluded := fmtHM 0;
       Overtime := fmtHM ot2;
       NextDayHours := nextDayHours |} in
  (* 3) Full day + combine + rest (only if combine set) *)
  let s3 :=
    if Fle (Fconst 0) combineH then
      let x := hoursToMin combineH in
      let x := minInt x releaseLenMin in
      let x := minInt x fullDayMin in
      let pre3 := Int.sub fullDayMin x in
      let workStart3 := Int.sub rsMin pre3 in
      let workEnd3 := Int.add rsMin x in
      let ot3 := Int.sub releaseLenMin x in
      let '(x, workStart3, workEnd3, ot3) :=
        if ot3 >? maxOvertimeMin then
          let x := maxInt (Int.sub releaseLenMin maxOvertimeMin) 0 in
          let x := minInt x fullDayMin in
          let pre3 := Int.sub fullDayMin x in
          let workStart3 := Int.sub rsMin pre3 in
          let workEnd3 := Int.add rsMin x in
          let ot3 := Int.sub releaseLenMin x in
          (x, workStart3, workEnd3, ot3)
        else (x, workStart3, workEnd3, ot3) in
      [ {| Title := "Full day + " ++ fmt_2f combineH ++ "h + "
                      ++ fmt_2f (Fsub lengthH combineH) ++ "h";
           WorkHours := fmtRange workStart3 workEnd3;
           ReleaseWindow := releaseWindow;
           TotalWork := fmtRange workStart3 reEndAbs;
           ReleaseIncluded := fmtHM x;
           Overtime := fmtHM ot3;
           NextDayHours := nextDayHours |} ]
    else [] in
  Ok {| ReleaseStart := fmtClock rsMin;
        ReleaseEnd := fmtClock reEndAbs;
        ReleaseLen := fmtHM releaseLenMin;
        FullDay := fmtHM fullDayMin;
        NormalStart := fmtClock nsMin;
        NormalEnd := fmtClock neMin;
        NormalLen := fmtHM normalLenMin;
        MinRest := fmtHM minRestMin;
        MaxOvertime := fmtHM maxOvertimeMin;
        Scenarios := [s1; s2] ++ s3 |}
  end end end.

End Core.

(** ** Helpers of the web pages *)

Definition orDefault (val def : string) : string :=
  if String.eqb (TrimSpace val) EmptyString then def else TrimSpace val.

(** The seven bytes that stand between the two clock strings in the format
    strings of [buildShareDescription], as the source file has them. *)
Definition arrow : string :=
  string_of_list_ascii
    (map ascii_of_N [226; 128; 154; 195; 156; 195; 173]%N).

Definition buildShareDescription (res : CalcResult) : string :=
  match Scenarios res with
  | [] =>
      "Release " ++ ReleaseStart res ++ " " ++ arrow ++ " " ++ ReleaseEnd res
      ++ " (len " ++ ReleaseLen res ++ "). Full day " ++ FullDay res
      ++ ", min rest " ++ MinRest res ++ ", max OT " ++ MaxOvertime res ++ "."
  | s :: _ =>
      "Release " ++ ReleaseStart res ++ arrow ++ ReleaseEnd res
      ++ " (" ++ ReleaseLen res ++ "). Work " ++ WorkHours s
      ++ ". Included " ++ ReleaseIncluded s ++ ", overtime " ++ Overtime s
      ++ ". Next day " ++ NextDayHours s ++ "."
  end.

(** ** Queries: the functions of [net/url] the web pages call *)

Module Url.

(** Letters, digits and the four marks are written as they are by
    [QueryEscape]; every other byte is escaped. *)
Definition unreserved (c : ascii) : bool :=
  let n := N_of_ascii c in
  ((97 <=? n) && (n <=? 122) || (65 <=? n) && (n <=? 90)
   || (48 <=? n) && (n <=? 57)
   || (n =? 45) || (n =? 95) || (n =? 46) || (n =? 126))%N.

Definition upperhex (n : N) : ascii :=
  ascii_of_N (if (n <? 10)%N then 48 + n else 55 + n).

(** What [QueryEscape] writes for one byte: the byte, a plus sign for a
    space, or a percent sign and two hexadecimal digits. *)
Definition escape_byte (c : ascii) : string :=
  if unreserved c then String c EmptyString
  else if Ascii.eqb c " " then "+"
  else
    let n := N_of_ascii c in
    String "%" (String (upperhex (n / 16))
                  (String (upperhex (n mod 16)) EmptyString)).

Fixpoint QueryEscape (s : string) : string :=
  match s with
  | EmptyString => EmptyString
  | String c r => escape_byte c ++ QueryEscape r
  end.

Definition unhex (c : ascii) : option N :=
  let n := N_of_ascii c in
  if ((48 <=? n) && (n <=? 57))%N then Some (n - 48)%N
  else if ((97 <=? n) && (n <=? 102))%N then Some (n - 97 + 10)%N
  else if ((65 <=? n) && (n <=? 70))%N then Some (n - 65 + 10)%N
  else None.

(** [QueryUnescape]; [None] stands for the error of an escape that is not
    a percent sign and two hexadecimal digits. *)
Fixpoint QueryUnescape (s : string) : option string :=
  match s with
  | EmptyString => Some EmptyString
  | String c r =>
      if Ascii.eqb c "%" then
        match r with
        | String a (String b r2) =>
            match unhex a, unhex b with
            | Some x, Some y =>
                option_map (String (ascii_of_N (x * 16 + y))) (QueryUnescape r2)
            | _, _ => None
            end
        | _ => None
        end
      else if Ascii.eqb c "+" then option_map (String " ") (QueryUnescape r)
      else option_map (String c) (QueryUnescape r)
  end.

(** [strings.Cut] at the first occurrence of a byte. *)
Fixpoint cut (sep : ascii) (s : string) : string * string * bool :=
  match s with
  | EmptyString => (EmptyString, EmptyString, false)
  | String c r =>
      if Ascii.eqb c sep then (EmptyString, r, true)
      else let '(a, b, found) := cut sep r in (String c a, b, found)
  end.

(** The pieces between the occurrences of a byte. *)
Fixpoint pieces (sep : ascii) (s : string) : list string :=
  match s with
  | EmptyString => [EmptyString]
  | String c r =>
      if Ascii.eqb c sep then EmptyString :: pieces sep r
      else
        match pieces sep r with
        | p :: ps => String c p :: ps
        | [] => [String c EmptyString]
        end
  end.

Fixpoint contains (c : ascii) (s : string) : bool :=
  match s with
  | EmptyString => false
  | String d r => Ascii.eqb d c || contains c r
  end.

(** [url.Values], a map from keys to lists of values: the keys in the order
    of their first insertion, each once. *)
Definition Values : Type := list (string * list string).

Fixpoint lookup (key : string) (m : Values) : option (list string) :=
  match m with
  | [] => None
  | (k, vs) :: rest => if String.eqb k key then Some vs else lookup key rest
  end.

(** [Values.Get]: the first value of the key, or the empty string. *)
Definition Get (key : string) (m : Values) : string :=
  match lookup key m with
  | Some (v :: _) => v
  | _ => EmptyString
  end.

(** [Values.Set]: the key has this value and no other. *)
Fixpoint Set_ (key value : string) (m : Values) : Values :=
  match m with
  | [] => [(key, [value])]
  | (k, vs) :: rest =>
      if String.eqb k key then (k, [value]) :: rest
      else (k, vs) :: Set_ key value rest
  end.

(** [m[key] = append(m[key], value)]. *)
Fixpoint Add (key value : string) (m : Values) : Values :=
  match m with
  | [] => [(key, [value])]
  | (k, vs) :: rest =>
      if String.eqb k key then (k, (vs ++ [value])%list) :: rest
      else (k, vs) :: Add key value rest
  end.

Fixpoint insert_sorted (kv : string * list string) (m : Values) : Values :=
  match m with
  | [] => [kv]
  | kv' :: rest =>
      if String.leb (fst kv) (fst kv') then kv :: m
      else kv' :: insert_sorted kv rest
  end.

Definition sort_keys (m : Values) : Values := fold_right insert_sorted [] m.

Fixpoint join (sep : string) (l : list string) : string :=
  match l with
  | [] => EmptyString
  | [x] => x
  | x :: rest => x ++ sep ++ join sep rest
  end.

(** [Values.Encode]: the pairs [key=value], escaped, in the order of the
    keys, with [&] between them. *)
Definition Encode (m : Values) : string :=
  join "&"
    (flat_map (fun kv => map (fun v => QueryEscape (fst kv) ++ "=" ++ QueryEscape v)
                           (snd kv))
       (sort_keys m)).

(** [url.ParseQuery], without its error: a piece with a semicolon, an empty
    piece, and a piece whose key or value does not unescape are left out. *)
Definition parse_piece (m : Values) (piece : string) : Values :=
  if contains ";" piece then m
  else if String.eqb piece EmptyString then m
  else
    let '(key, value, _) := cut "=" piece in
    match QueryUnescape key with
    | None => m
    | Some key =>
        match QueryUnescape value with
        | None => m
        | Some value => Add key value m
        end
    end.

Definition ParseQuery (query : string) : Values :=
  fold_left parse_piece (pieces "&" query) [].

End Url.

(** ** The link to a calculation, and the page that reads it *)

Definition appVersion : string := "0.1.11".

Definition webDefaultStart : string := "18:30".
Definition webDefaultLength : string := "4".
Definition webDefaultNormalStart : string := "09:00".
Definition webDefaultNormalEnd : string := "17:30".
Definition webDefaultMinRest : string := "11".
Definition webDefaultMaxOvertime : string := "4".

Definition nonempty (s : string) : bool := negb (String.eqb s EmptyString).

Definition buildCalcURL
    (start length combine normalStart normalEnd minRest maxOvertime : string)
  : string :=
  let v : Url.Values := [] in
  let v := Url.Set_ "start" start v in
  let v := Url.Set_ "length" length v in
  let v := if nonempty combine then Url.Set_ "combine" combine v else v in
  let v :=
    if nonempty normalStart && negb (String.eqb normalStart webDefaultNormalStart)
    then Url.Set_ "normal_start" normalStart v else v in
  let v :=
    if nonempty normalEnd && negb (String.eqb normalEnd webDefaultNormalEnd)
    then Url.Set_ "normal_end" normalEnd v else v in
  let v :=
    if nonempty minRest && negb (String.eqb minRest webDefaultMinRest)
    then Url.Set_ "min_rest" minRest v else v in
  let v :=
    if nonempty maxOvertime && negb (String.eqb maxOvertime webDefaultMaxOvertime)
    then Url.Set_ "max_overtime" maxOvertime v else v in
  "/?" ++ Url.Encode v.

Module Page.

Record PageData : Type :=
  { Start : string;
    Length : string;
    Combine : string;
    NormalStart : string;
    NormalEnd : string;
    MinRest : string;
    MaxOvertime : string;
    Full : string;
    Version : string;
    Error : string;
    Result : option CalcResult;
    ShareDescription : string }.

(** The page data the handler of ["/"] builds from the query of the request,
    before any calculation. *)
Definition ofQuery (q : Url.Values) : PageData :=
  let data :=
    {| Start := orDefault (Url.Get "start" q) webDefaultStart;
       Length := orDefault (Url.Get "length" q) webDefaultLength;
       Combine := TrimSpace (Url.Get "combine" q);
       NormalStart :=
         orDefault (TrimSpace (Url.Get "normal_start" q)) webDefaultNormalStart;
       NormalEnd :=
         orDefault (TrimSpace (Url.Get "normal_end" q)) webDefaultNormalEnd;
       MinRest := orDefault (TrimSpace (Url.Get "min_rest" q)) webDefaultMinRest;
       MaxOvertime :=
         orDefault (TrimSpace (Url.Get "max_overtime" q)) webDefaultMaxOvertime;
       Full := "(auto)";
       Version := appVersion;
       Error := EmptyString;
       Result := None;
       ShareDescription := EmptyString |} in
  if String.eqb (NormalEnd data) EmptyString then
    {| Start := Start data;
       Length := Length data;
       Combine := Combine data;
       NormalStart := NormalStart data;
       NormalEnd := webDefaultNormalEnd;
       MinRest := MinRest data;
       MaxOvertime := MaxOvertime data;
       Full := Full data;
       Version := Version data;
       Error := Error data;
       Result := Result data;
       ShareDescription := ShareDescription data |}
  else data.

End Page.

(** The pairs of a link, in the order of their keys: what [buildCalcURL]
    leaves out is what is empty or the default of the page. *)
Definition link_pairs
    (start length combine normalStart normalEnd minRest maxOvertime : string)
  : list (string * string) :=
  ((if nonempty combine then [("combine", combine)] else [])
   ++ [("length", length)]
   ++ (if nonempty maxOvertime && negb (String.eqb maxOvertime webDefaultMaxOvertime)
       then [("max_overtime", maxOvertime)] else [])
   ++ (if nonempty minRest && negb (String.eqb minRest webDefaultMinRest)
       then [("min_rest", minRest)] else [])
   ++ (if nonempty normalEnd && negb (String.eqb normalEnd webDefaultNormalEnd)
       then [("normal_end", normalEnd)] else [])
   ++ (if nonempty normalStart && negb (String.eqb normalStart webDefaultNormalStart)
       then [("normal_start", normalStart)] else [])
   ++ [("start", start)])%list.

Definition encode_pair (kv : string * string) : string :=
  Url.QueryEscape (fst kv) ++ "=" ++ Url.QueryEscape (snd kv).

Definition query_safe (c : ascii) : bool :=
  negb (Ascii.eqb c "&") && negb (Ascii.eqb c "=") && negb (Ascii.eqb c ";").

(** ** The command line *)

Definition newline : string := String (ascii_of_N 10) EmptyString.

(** What [printCLI] writes to the standard output. *)
Definition printScenario (s : Scenario) : string :=
  Title s ++ newline
  ++ "  Work Hours:                    " ++ WorkHours s ++ newline
  ++ "  Release Window:                " ++ ReleaseWindow s ++ newline
  ++ "  Total Work:                    " ++ TotalWork s ++ newline
  ++ "  Release Hours Included in Full " ++ ReleaseIncluded s ++ newline
  ++ "  Overtime:                      " ++ Overtime s ++ newline
  ++ "  Next Day Hours:                " ++ NextDayHours s ++ newline
  ++ newline.

Definition printCLI (res : CalcResult) : string :=
  "Release Window: " ++ ReleaseStart res ++ " -> " ++ ReleaseEnd res
  ++ " (len " ++ ReleaseLen res ++ ")" ++ newline
  ++ "Normal day: " ++ NormalStart res ++ " -> " ++ NormalEnd res
  ++ " (len " ++ NormalLen res ++ ")" ++ newline
  ++ "Full day used: " ++ FullDay res ++ ", Min rest: " ++ MinRest res
  ++ ", Max overtime (cap): " ++ MaxOvertime res ++ newline ++ newline
  ++ String.concat EmptyString (map printScenario (Scenarios res)).

Module Cli.

(** The errors the command returns: its own three, and those of
    [compute]. *)
Inductive cliError : Type :=
| ErrStartRequired      (* "--start is required (or use --port)" *)
| ErrLengthFlag         (* "--length must be > 0" *)
| ErrMinRestFlag        (* "--min-rest must be > 0" *)
| ErrCompute (err : error).

(** What a run of the command does. *)
Inductive outcome : Type :=
| PrintVersion (out : string)
| ServeWeb (port : Z) (defaultNormalStart defaultNormalEnd : string)
    (defaultMinRestH defaultMaxOvertimeH : float64)
| Fail (err : cliError)
| Print (out : string).

(** The function [RunE] of the command in [main], on the values of the
    flags. *)
Definition RunE `{Platform} (version : bool) (port : Z) (startStr : string)
    (lengthH combineH fullH : float64) (normalStartStr normalEndStr : string)
    (minRestH maxOvertimeH : float64) : outcome :=
  if version then PrintVersion ("nightrelcalc v" ++ appVersion ++ newline)
  else if port >? 0 then
    ServeWeb port normalStartStr normalEndStr minRestH maxOvertimeH
  else if String.eqb (TrimSpace startStr) EmptyString then
    Fail ErrStartRequired
  else if Fle lengthH (Fconst 0) then Fail ErrLengthFlag
  else if Fle minRestH (Fconst 0) then Fail ErrMinRestFlag
  else
    match compute startStr lengthH combineH fullH normalStartStr normalEndStr
            minRestH maxOvertimeH with
    | Err err => Fail (ErrCompute err)
    | Ok res => Print (printCLI res)
    end.

End Cli.

(** ** Notions used by the properties *)

(** A float that is not above zero: a zero of either sign, or a value whose
    sign bit is set (a NaN has no sign and passes). *)
Definition not_positive (x : float64) : Prop :=
  match x with
  | S754_zero _ | S754_nan => True
  | S754_infinity s | S754_finite s _ _ => s = true
  end.

(** A float that is not below zero: a zero of either sign, or a value whose
    sign bit is clear (a NaN has no sign and passes). *)
Definition not_negative (x : float64) : Prop :=
  match x with
  | S754_zero _ | S754_nan => True
  | S754_infinity s | S754_finite s _ _ => s = false
  end.

(** The conversion to minutes is exact when the rounded product is finite
    and within [int]: the cases the Go specification defines. *)
Definition exact_minutes (h : float64) : bool :=
  match Round (Fmul h (Fconst 60)) with
  | S754_zero _ => true
  | S754_finite _ _ _ as y => Int.in_range (Ftrunc y)
  | _ => false
  end.

(** The full day used: the override when it is positive, the normal day
    otherwise. *)
Definition fullDayUsed `{Platform} (fullH : float64) (normalLenMin : Z) : Z :=
  if Flt (Fconst 0) fullH then hoursToMin fullH else normalLenMin.

(** One half, and the float64 nearest to one thousandth. *)
Definition Fhalf : float64 := S754_finite false 4503599627370496 (-53).

Definition Fmilli : float64 :=
  Eval vm_compute in SFdiv prec emax (Fconst 1) (Fconst 1000).

(** The integers [lo], [lo + 1], ..., [n] of them. *)
Definition interval (lo : Z) (n : nat) : list Z :=
  map (fun i => lo + Z.of_nat i) (seq 0 n).

Definition result_eqb (a : result Z error) (z : Z) : bool :=
  match a with
  | Ok v => v =? z
  | Err _ => false
  end.

(** Within the day [fmtClock] writes the hour and the minute, two digits
    each, and nothing else. *)
Definition plain_clock (min : Z) : bool :=
  String.eqb (fmtClock min) (fmt_02d (min / 60) ++ ":" ++ fmt_02d (min mod 60))
  && (String.length (fmtClock min) =? 5)%nat.

(** The default example: release at 18:30 for 4 hours, no combine, no
    override, normal day 09:00 to 17:30, rest 11 hours, cap 4 hours. *)
Definition default_result : CalcResult :=
  {| ReleaseStart := "18:30";
     ReleaseEnd := "22:30";
     ReleaseLen := "4h00m";
     FullDay := "8h30m";
     NormalStart := "09:00";
     NormalEnd := "17:30";
     NormalLen := "8h30m";
     MinRest := "11h00m";
     MaxOvertime := "4h00m";
     Scenarios :=
       [ {| Title := "Full day (release included) - No Overtime";
            WorkHours := "14:00 -> 22:30";
            ReleaseWindow := "18:30 -> 22:30";
            TotalWork := "14:00 -> 22:30";
            ReleaseIncluded := "4h00m";
            Overtime := "0h00m";
            NextDayHours := "09:30 (+1d) -> 18:00 (+1d)" |};
         {| Title := "Full day + release (Overtime)";
            WorkHours := "10:00 -> 18:30";
            ReleaseWindow := "18:30 -> 22:30";
            TotalWork := "10:00 -> 22:30";
            ReleaseIncluded := "0h00m";
            Overtime := "4h00m";
            NextDayHours := "09:30 (+1d) -> 18:00 (+1d)" |} ] |}.

(** The combine example: release at 20:00 for 5 hours, 2 hours combined,
    normal day 09:00 to 17:00, rest 11 hours, cap 4 hours. *)
Definition combine_result : CalcResult :=
  {| ReleaseStart := "20:00";
     ReleaseEnd := "01:00 (+1d)";
     ReleaseLen := "5h00m";
     FullDay := "8h00m";
     NormalStart := "09:00";
     NormalEnd := "17:00";
     NormalLen := "8h00m";
     MinRest := "11h00m";
     MaxOvertime := "4h00m";
     Scenarios :=
       [ {| Title := "Full day (release included) - No Overtime";
            WorkHours := "17:00 -> 01:00 (+1d)";
            ReleaseWindow := "20:00 -> 01:00 (+1d)";
            TotalWork := "17:00 -> 01:00 (+1d)";
            ReleaseIncluded := "5h00m";
            Overtime := "0h00m";
            NextDayHours := "09:00 (+2d) -> 17:00 (+2d)" |};
         {| Title := "Full day + release (Overtime)";
            WorkHours := "13:00 -> 21:00";
            ReleaseWindow := "20:00 -> 01:00 (+1d)";
            TotalWork := "13:00 -> 01:00 (+1d)";
            ReleaseIncluded := "0h00m";
            Overtime := "4h00m";
            NextDayHours := "09:00 (+2d) -> 17:00 (+2d)" |};
         {| Title := "Full day + 2.00h + 3.00h";
            WorkHours := "14:00 -> 22:00";
            ReleaseWindow := "20:00 -> 01:00 (+1d)";
            TotalWork := "14:00 -> 01:00 (+1d)";
            ReleaseIncluded := "2h00m";
            Overtime := "3h00m";
            NextDayHours := "09:00 (+2d) -> 17:00 (+2d)" |} ] |}.

(** An ASCII byte that is not white space: no white space begins or ends
    with it. *)
Definition plain_byte (c : ascii) : bool :=
  (N_of_ascii c <? 128)%N && negb (ascii_space c).

(** All the bytes of a string pass a test. *)
Fixpoint string_forall (p : ascii -> bool) (s : string) : bool :=
  match s with
  | EmptyString => true
  | String c r => p c && string_forall p r
  end.

Definition is_digit_or_minus (c : ascii) : bool :=
  is_digit c || Ascii.eqb c "-".

Definition not_colon (c : ascii) : bool := negb (Ascii.eqb c ":").

(** The reading of a decimal numeral, the inverse of [fmt_d]. *)
Definition read_d (s : string) : option Z :=
  option_map Z.of_int (NilZero.int_of_string s).

(** The two parts of what [fmtClock] writes: the time of the day, and the
    day when it is not day 0. *)
Definition clock_of_day (t : Z) : string :=
  fmt_02d (t / 60) ++ ":" ++ fmt_02d (t mod 60).

Definition day_suffix (d : Z) : string :=
  if d =? 0 then EmptyString else " (+" ++ fmt_d d ++ "d)".

(** What [fmt_02d] writes for a number below 100: two digits, which [Atoi]
    reads back. *)
Definition two_digits (n : Z) : bool :=
  match fmt_02d n with
  | String a (String b EmptyString) =>
      is_digit a && is_digit b
      && match Atoi (fmt_02d n) with
         | Some v => v =? n
         | None => false
         end
  | _ => false
  end.

(** Whether a string begins with a white space character, and whether a
    reversed string does. *)
Definition ws_head (s : string) : bool :=
  match s with
  | String a r =>
      ascii_space a
      || match r with
         | String b r2 =>
             space2 a b
             || match r2 with
                | String c _ => space3 a b c
                | EmptyString => false
                end
         | EmptyString => false
         end
  | EmptyString => false
  end.

Definition ws_head_rev (s : string) : bool :=
  match s with
  | String a r =>
      ascii_space a
      || match r with
         | String b r2 =>
             space2 b a
             || match r2 with
                | String c _ => space3 c b a
                | EmptyString => false
                end
         | EmptyString => false
         end
  | EmptyString => false
  end.

(** * Properties *)

(** ** The model on sample values *)

Example Atoi_samples :
  Atoi "07" = Some 7 /\ Atoi "+7" = Some 7 /\ Atoi "-0" = Some 0 /\
  Atoi EmptyString = None /\ Atoi "-" = None /\ Atoi "1_0" = None /\ Atoi " 7" = None /\
  Atoi "9223372036854775807" = Some Int.max_int /\
  Atoi "9223372036854775808" = None /\
  Atoi "-9223372036854775808" = Some Int.min_int.
Proof. repeat split; reflexivity. Qed.

Example TrimSpace_samples :
  TrimSpace ("  18:30" ++ String (ascii_of_N 9) EmptyString) = "18:30" /\
  TrimSpace EmptyString = EmptyString /\
  TrimSpace "18 :30" = "18 :30" /\
  TrimSpace (String (ascii_of_N 194) (String (ascii_of_N 160) "9:00")) = "9:00".
Proof. repeat split; reflexivity. Qed.

Example parseHHMMToMin_samples :
  parseHHMMToMin " 18:30 " = Ok 1110 /\ parseHHMMToMin "+5:07" = Ok 307 /\
  parseHHMMToMin "23:59" = Ok 1439 /\
  parseHHMMToMin "24:00" = Err (ErrInvalidTime "24:00") /\
  parseHHMMToMin "12:60" = Err (ErrInvalidTime "12:60") /\
  parseHHMMToMin "1:2:3" = Err (ErrInvalidTime "1:2:3") /\
  parseHHMMToMin "1830" = Err (ErrInvalidTime "1830").
Proof. repeat split; reflexivity. Qed.

Example fmtClock_samples :
  fmtClock 0 = "00:00" /\ fmtClock 1350 = "22:30" /\
  fmtClock 1440 = "00:00 (+1d)" /\ fmtClock 2010 = "09:30 (+1d)" /\
  fmtClock (-1) = "23:59 (+-1d)".
Proof. repeat split; reflexivity. Qed.

Example fmtHM_samples :
  fmtHM 0 = "0h00m" /\ fmtHM 240 = "4h00m" /\ fmtHM 1505 = "25h05m" /\
  fmtHM (-90) = "1h30m" /\
  fmtHM Int.min_int = "-153722867280912930h-8m".
Proof. repeat split; vm_compute; reflexivity. Qed.

Example Round_samples :
  Round (SFdiv prec emax (Fconst 5) (Fconst 2)) = Fconst 3 /\
  Round (SFdiv prec emax (Fconst (-5)) (Fconst 2)) = Fconst (-3) /\
  Round (SFdiv prec emax (Fconst 2) (Fconst 5)) = S754_zero false /\
  Round (SFdiv prec emax (Fconst (-2)) (Fconst 5)) = S754_zero true /\
  Round S754_nan = S754_nan.
Proof. repeat split; vm_compute; reflexivity. Qed.

Example hoursToMin_samples `{Platform} :
  hoursToMin (Fconst 4) = 240 /\
  hoursToMin (SFdiv prec emax (Fconst 7) (Fconst 2)) = 210 /\
  hoursToMin (SFdiv prec emax (Fconst 1) (Fconst 3)) = 20 /\
  hoursToMin (SFdiv prec emax (Fconst 1) (Fconst 120)) = 1 /\
  hoursToMin Fmilli = 0 /\
  hoursToMin (Fconst (-2)) = -120.
Proof. repeat split; vm_compute; reflexivity. Qed.

Example fmt_2f_samples :
  fmt_2f (Fconst 2) = "2.00" /\
  fmt_2f (SFdiv prec emax (Fconst 7) (Fconst 2)) = "3.50" /\
  fmt_2f (SFdiv prec emax (Fconst 1) (Fconst 8)) = "0.12" /\
  fmt_2f (SFdiv prec emax (Fconst 3) (Fconst 8)) = "0.38" /\
  fmt_2f (SFdiv prec emax (Fconst 2) (Fconst 3)) = "0.67" /\
  fmt_2f (Fconst (-1)) = "-1.00" /\
  fmt_2f S754_nan = "NaN" /\ fmt_2f (S754_infinity false) = "+Inf".
Proof. repeat split; vm_compute; reflexivity. Qed.

(** On these floats the comparison by values is the comparison of the
    standard library's specification. *)
Example Fcompare_samples :
  Fcompare (Fconst 3) Fhalf = SFcompare (Fconst 3) Fhalf /\
  Fcompare Fmilli Fhalf = SFcompare Fmilli Fhalf /\
  Fcompare (Fconst (-1)) (Fconst 0) = SFcompare (Fconst (-1)) (Fconst 0) /\
  Fcompare (Fconst 0) (S754_zero true) = Some Eq /\
  Fcompare S754_nan (Fconst 0) = None /\
  Fle S754_nan (Fconst 0) = false /\ Flt (Fconst 0) S754_nan = false.
Proof. repeat split; vm_compute; reflexivity. Qed.

Lemma Ok_inj {A E : Type} (a b : A) : @Ok A E a = Ok b -> a = b.
Proof. intros Hab. now injection Hab. Qed.

(** ** Machine integers *)

Module IntFacts.

Lemma wrap_range (z : Z) : Int.min_int <= Int.wrap z <= Int.max_int.
Proof.
  unfold Int.wrap, Int.min_int, Int.max_int.
  pose proof (Z.mod_pos_bound (z + 2 ^ 63) (2 ^ 64) ltac:(lia)). lia.
Qed.

Lemma wrap_small (z : Z) :
  Int.min_int <= z <= Int.max_int -> Int.wrap z = z.
Proof.
  unfold Int.wrap, Int.min_int, Int.max_int. intros Hz.
  rewrite Z.mod_small by lia. lia.
Qed.

Lemma in_range_spec (z : Z) :
  Int.in_range z = true <-> Int.min_int <= z <= Int.max_int.
Proof. unfold Int.in_range. rewrite andb_true_iff, !Z.leb_le. tauto. Qed.

(** The wrapped difference undoes the wrapped difference. *)
Lemma sub_sub_cancel (a b : Z) :
  Int.min_int <= b <= Int.max_int -> Int.sub a (Int.sub a b) = b.
Proof.
  intros Hb. unfold Int.sub, Int.wrap.
  replace (a - ((a - b + 2 ^ 63) mod 2 ^ 64 - 2 ^ 63) + 2 ^ 63)
    with (a + 2 ^ 64 - (a - b + 2 ^ 63) mod 2 ^ 64) by lia.
  rewrite Zminus_mod_idemp_r.
  replace (a + 2 ^ 64 - (a - b + 2 ^ 63)) with (b + 2 ^ 63) by lia.
  unfold Int.min_int, Int.max_int in Hb. rewrite Z.mod_small by lia. lia.
Qed.

End IntFacts.

Lemma minInt_min (a b : Z) : minInt a b = Z.min a b.
Proof. unfold minInt. destruct (Z.ltb_spec a b); lia. Qed.

Lemma maxInt_max (a b : Z) : maxInt a b = Z.max a b.
Proof. unfold maxInt. rewrite Z.gtb_ltb. destruct (Z.ltb_spec b a); lia. Qed.

(** [floorDiv] by the length of a day is the floor of the quotient. *)
Lemma floorDiv_1440 (a : Z) :
  Int.min_int <= a <= Int.max_int -> floorDiv a 1440 = a / 1440.
Proof.
  intros Ha. unfold floorDiv, Int.quot, Int.rem, Int.sub. simpl (1440 =? 0).
  cbv iota.
  pose proof (Z.quot_rem' a 1440) as Hqr.
  pose proof (Z.div_mod a 1440 ltac:(lia)) as Hdm.
  pose proof (Z.mod_pos_bound a 1440 ltac:(lia)) as Hm.
  assert (Hq : Int.min_int <= Z.quot a 1440 <= Int.max_int).
  { unfold Int.min_int, Int.max_int in *.
    destruct (Z.le_gt_cases 0 a) as [Hp | Hn].
    - pose proof (Z.rem_bound_pos a 1440 Hp ltac:(lia)). lia.
    - pose proof (Z.rem_bound_pos_neg a 1440 ltac:(lia) ltac:(lia)). lia. }
  rewrite (IntFacts.wrap_small _ Hq).
  destruct (Z.le_gt_cases 0 a) as [Hp | Hn].
  - pose proof (Z.rem_bound_pos a 1440 Hp ltac:(lia)) as Hr.
    destruct (Z.eqb_spec (Z.rem a 1440) 0) as [E | E]; simpl.
    + lia.
    + replace (Z.rem a 1440 >? 0) with true by (symmetry; apply Z.gtb_lt; lia).
      simpl. lia.
  - pose proof (Z.rem_bound_pos_neg a 1440 ltac:(lia) ltac:(lia)) as Hr.
    destruct (Z.eqb_spec (Z.rem a 1440) 0) as [E | E]; simpl.
    + lia.
    + replace (Z.rem a 1440 >? 0) with false
        by (symmetry; rewrite Z.gtb_ltb; apply Z.ltb_ge; lia).
      simpl. rewrite IntFacts.wrap_small; unfold Int.min_int, Int.max_int in *; lia.
Qed.

(** [mod_] by the length of a day is the remainder of the floor division. *)
Lemma mod_1440 (a : Z) : mod_ a 1440 = a mod 1440.
Proof.
  unfold mod_, Int.rem, Int.add.
  pose proof (Z.quot_rem' a 1440) as Hqr.
  pose proof (Z.div_mod a 1440 ltac:(lia)) as Hdm.
  pose proof (Z.mod_pos_bound a 1440 ltac:(lia)) as Hm.
  destruct (Z.le_gt_cases 0 a) as [Hp | Hn].
  - pose proof (Z.rem_bound_pos a 1440 Hp ltac:(lia)) as Hr.
    destruct (Z.ltb_spec (Z.rem a 1440) 0); lia.
  - pose proof (Z.rem_bound_pos_neg a 1440 ltac:(lia) ltac:(lia)) as Hr.
    destruct (Z.ltb_spec (Z.rem a 1440) 0).
    + rewrite IntFacts.wrap_small by (unfold Int.min_int, Int.max_int; lia). lia.
    + lia.
Qed.

(** ** Ranges *)

Ltac unwrap :=
  unfold Int.add, Int.sub, Int.mul, Int.neg in *;
  repeat match goal with
         | |- context [Int.wrap ?z] =>
             rewrite (IntFacts.wrap_small z)
               by (unfold Int.min_int, Int.max_int in *; lia)
         end.

Lemma parseHHMMToMin_range (s : string) (v : Z) :
  parseHHMMToMin s = Ok v -> 0 <= v <= 1439.
Proof.
  unfold parseHHMMToMin.
  destruct (split_colon (TrimSpace s)) as [| p0 [| p1 [| ? ?]]]; try discriminate.
  destruct (Atoi p0) as [h |]; [| discriminate].
  destruct ((h <? 0) || (h >? 23)) eqn:Hh; [discriminate |].
  destruct (Atoi p1) as [m |]; [| discriminate].
  destruct ((m <? 0) || (m >? 59)) eqn:Hm; [discriminate |].
  apply orb_false_iff in Hh, Hm. rewrite Z.ltb_ge, Z.gtb_ltb, Z.ltb_ge in Hh, Hm.
  intros E. injection E as <-. unwrap. lia.
Qed.

Section Ranges.

Context `{Platform}.

Lemma int_of_float_range (x : float64) :
  Int.min_int <= int_of_float x <= Int.max_int.
Proof.
  unfold int_of_float.
  destruct x; try apply IntFacts.wrap_range.
  - unfold Int.min_int, Int.max_int. lia.
  - destruct (Int.in_range _) eqn:E.
    + now apply IntFacts.in_range_spec.
    + apply IntFacts.wrap_range.
Qed.

Lemma hoursToMin_range (h : float64) :
  Int.min_int <= hoursToMin h <= Int.max_int.
Proof. apply int_of_float_range. Qed.

End Ranges.

(** Opens a successful run of [compute]: names the parsed clock values,
    records what the validations established, and splits on whether the
    overtime of the second scenario is capped. *)
Ltac compute_inv Hc rs ns ne :=
  unfold compute in Hc;
  destruct (parseHHMMToMin _) as [rs |] eqn:Hrs in Hc; [| discriminate Hc];
  destruct (Fle _ (Fconst 0)) eqn:Hlen in Hc; [discriminate Hc |];
  destruct (parseHHMMToMin _) as [ns |] eqn:Hns in Hc; [| discriminate Hc];
  destruct (parseHHMMToMin _) as [ne |] eqn:Hne in Hc; [| discriminate Hc];
  destruct (Int.sub ne ns <=? 0) eqn:Hday in Hc; [discriminate Hc |];
  destruct (hoursToMin _ <=? 0) eqn:Hrest in Hc; [discriminate Hc |];
  destruct (hoursToMin _ <? 0) eqn:Hcap in Hc; [discriminate Hc |];
  apply Z.leb_gt in Hday; apply Z.leb_gt in Hrest; apply Z.ltb_ge in Hcap;
  destruct (hoursToMin _ >? hoursToMin _) eqn:Ecap in Hc;
  apply Ok_inj in Hc; subst.

Section Overtime.

Context `{Platform}.

Variables (startStr normalStartStr normalEndStr : string).
Variables (lengthH combineH fullH minRestH maxOvertimeH : float64).

(** C1, as amended: when [compute] succeeds and the minute values of the
    release length, of the full-day override (when one is given) and of the
    combine length (when one is given) are not negative, the overtime of
    every scenario is the rendering of a number of minutes between 0 and
    the larger of the overtime cap and the release length. *)
Theorem overtime_bounds (r : CalcResult) :
  compute startStr lengthH combineH fullH normalStartStr normalEndStr
    minRestH maxOvertimeH = Ok r ->
  0 <= hoursToMin lengthH ->
  (Flt (Fconst 0) fullH = true -> 0 <= hoursToMin fullH) ->
  (Fle (Fconst 0) combineH = true -> 0 <= hoursToMin combineH) ->
  Forall (fun s => exists ot,
              Overtime s = fmtHM ot /\
              0 <= ot <= Z.max (hoursToMin maxOvertimeH) (hoursToMin lengthH))
    (Scenarios r).
Proof.
  intros Hc HL HF HX.
  pose proof (hoursToMin_range lengthH) as BL.
  pose proof (hoursToMin_range maxOvertimeH) as BM.
  pose proof (hoursToMin_range fullH) as BF.
  pose proof (hoursToMin_range combineH) as BX.
  compute_inv Hc rs ns ne.
  all: pose proof (parseHHMMToMin_range _ _ Hrs) as Brs.
  all: pose proof (parseHHMMToMin_range _ _ Hns) as Bns.
  all: pose proof (parseHHMMToMin_range _ _ Hne) as Bne.
  all: set (L := hoursToMin lengthH) in *.
  all: set (M := hoursToMin maxOvertimeH) in *.
  all: assert (Hn : Int.sub ne ns = ne - ns) by (unwrap; lia).
  all: rewrite Hn in *.
  all: set (F := if Flt (Fconst 0) fullH then hoursToMin fullH else ne - ns) in *.
  all: assert (BFd : 0 <= F <= Int.max_int)
         by (subst F; destruct (Flt (Fconst 0) fullH);
             [specialize (HF eq_refl) | unfold Int.max_int]; lia).
  all: cbn [Scenarios].
  all: unfold Int.min_int, Int.max_int in *.
  all: repeat apply Forall_cons.
  1, 4: eexists; (split; [reflexivity |]);
        rewrite !minInt_min, !maxInt_max; unwrap; lia.
  1, 3: eexists; (split; [reflexivity |]);
        rewrite ?Z.gtb_ltb in Ecap;
        first [apply Z.ltb_lt in Ecap | apply Z.ltb_ge in Ecap]; lia.
  all: destruct (Fle (Fconst 0) combineH); [| apply Forall_nil].
  all: specialize (HX eq_refl); set (X := hoursToMin combineH) in *.
  all: rewrite !minInt_min, !maxInt_max.
  all: assert (E1 : Int.sub L (Z.min (Z.min X L) F) = L - Z.min (Z.min X L) F)
         by (unwrap; lia).
  all: rewrite E1.
  all: destruct (L - Z.min (Z.min X L) F >? M) eqn:E.
  all: (apply Forall_cons; [| apply Forall_nil]); eexists;
         (split; [reflexivity |]).
  all: rewrite Z.gtb_ltb in E;
         first [apply Z.ltb_lt in E | apply Z.ltb_ge in E]; unwrap; lia.
Qed.

End Overtime.

(** ** Signs of the floating-point operations *)

Lemma Fconst_0 : Fconst 0 = S754_zero false.
Proof. reflexivity. Qed.

Lemma Fconst_60 : Fconst 60 = S754_finite false 8444249301319680 (-47).
Proof. vm_compute. reflexivity. Qed.

Lemma binary_round_aux_not_negative (mx ex : Z) (lx : location) :
  not_negative (binary_round_aux prec emax false mx ex lx).
Proof.
  unfold binary_round_aux.
  destruct (shr_fexp prec emax mx ex lx) as [mrs' e'].
  destruct (shr_fexp prec emax _ e' loc_Exact) as [mrs'' e''].
  destruct (shr_m mrs''); [exact I | | exact I].
  destruct (e'' <=? emax - prec); reflexivity.
Qed.


Lemma pow2_pos (k : Z) : 0 <= k -> 0 < 2 ^ k.
Proof. intros Hk. apply Z.pow_pos_nonneg; lia. Qed.

Lemma Fle_zero_false (x : float64) :
  Fle x (Fconst 0) = false -> not_negative x.
Proof.
  rewrite Fconst_0. destruct x as [s | s | | s m e]; simpl; trivial.
  - destruct s; [discriminate | trivial].
  - unfold Fle, Fcompare, Fnum, Fexp. destruct s; [| trivial].
    pose proof (pow2_pos (e - Z.min e 0) ltac:(lia)) as Hp.
    replace (cond_Zopp true (Z.pos m) * 2 ^ (e - Z.min e 0) ?= _) with Lt;
      [discriminate |].
    symmetry. apply Z.compare_lt_iff. simpl cond_Zopp. nia.
Qed.

Lemma Fle_zero_true (x : float64) :
  Fle (Fconst 0) x = true -> not_negative x.
Proof.
  rewrite Fconst_0. destruct x as [s | s | | s m e]; simpl; trivial.
  - destruct s; [discriminate | trivial].
  - unfold Fle, Fcompare, Fnum, Fexp. destruct s; [| trivial].
    pose proof (pow2_pos (e - Z.min 0 e) ltac:(lia)) as Hp.
    replace (_ ?= cond_Zopp true (Z.pos m) * 2 ^ (e - Z.min 0 e)) with Gt;
      [discriminate |].
    symmetry. apply Z.compare_gt_iff. simpl cond_Zopp. nia.
Qed.


Lemma Fmul_60_not_negative (x : float64) :
  not_negative x -> not_negative (Fmul x (Fconst 60)).
Proof.
  rewrite Fconst_60. unfold Fmul.
  destruct x as [s | s | | s m e]; simpl; trivial.
  - intros ->. reflexivity.
  - intros ->. apply binary_round_aux_not_negative.
Qed.

Lemma Round_not_negative (x : float64) :
  not_negative x -> not_negative (Round x).
Proof.
  destruct x as [s | s | | s m e]; simpl; trivial.
  intros ->. destruct (0 <=? e) eqn:E; [reflexivity |].
  apply Z.leb_gt in E.
  pose proof (pow2_pos (- e) ltac:(lia)) as Hd.
  pose proof (Z.div_pos (Z.pos m) (2 ^ (- e)) ltac:(lia) Hd) as Hq.
  set (n := if _ <=? _ then _ else _).
  assert (Hn : 0 <= n) by (subst n; destruct (_ <=? _); lia).
  unfold cond_Zopp. destruct n as [| p | p]; [exact I | | lia].
  unfold binary_normalize, binary_round.
  destruct (shl_align _ _ _). apply binary_round_aux_not_negative.
Qed.

Lemma Ftrunc_not_negative (x : float64) : not_negative x -> 0 <= Ftrunc x.
Proof.
  destruct x as [s | s | | s m e]; try (intros _; reflexivity).
  intros Hs. cbn in Hs. subst s. unfold Ftrunc, cond_Zopp.
  destruct (0 <=? e) eqn:E.
  - apply Z.leb_le in E. pose proof (pow2_pos e E).
    apply Z.mul_nonneg_nonneg; lia.
  - apply Z.leb_gt in E. apply Z.div_pos; [lia |]. apply pow2_pos. lia.
Qed.

Section ExactMinutes.

Context `{Platform}.

(** On those inputs the platform plays no part. *)
Lemma hoursToMin_exact (h : float64) :
  exact_minutes h = true -> hoursToMin h = Ftrunc (Round (Fmul h (Fconst 60))).
Proof.
  unfold exact_minutes, hoursToMin, int_of_float.
  destruct (Round (Fmul h (Fconst 60))); try discriminate.
  - reflexivity.
  - intros ->. reflexivity.
Qed.

Lemma hoursToMin_not_negative (h : float64) :
  exact_minutes h = true -> not_negative h -> 0 <= hoursToMin h.
Proof.
  intros He Hh. rewrite (hoursToMin_exact h He).
  apply Ftrunc_not_negative, Round_not_negative, Fmul_60_not_negative, Hh.
Qed.

(** A length that passed [lengthH <= 0] and converts exactly is a
    non-negative number of minutes. *)
Lemma hoursToMin_positive_input (h : float64) :
  exact_minutes h = true -> Fle h (Fconst 0) = false -> 0 <= hoursToMin h.
Proof. intros He Hh. apply hoursToMin_not_negative; auto using Fle_zero_false. Qed.

Lemma hoursToMin_nonneg_input (h : float64) :
  exact_minutes h = true -> Fle (Fconst 0) h = true -> 0 <= hoursToMin h.
Proof. intros He Hh. apply hoursToMin_not_negative; auto using Fle_zero_true. Qed.

End ExactMinutes.

(** ** The scenarios of a successful run *)

Section Scenarios.

Context `{Platform}.

Variables (startStr normalStartStr normalEndStr : string).
Variables (lengthH combineH fullH minRestH maxOvertimeH : float64).

(** Splits the scenario list of the goal on whether the third scenario
    exists and on whether its overtime is capped. *)
Ltac split_third :=
  destruct (Fle (Fconst 0) combineH);
  [ match goal with
    | |- context [if ?c >? ?d then _ else _] => destruct (c >? d)
    end
  | ].

(** C2: in the scenario "Full day + release (Overtime)", the work ends at
    the release start when the release length is within the overtime cap;
    otherwise release end minus work end is the cap, the work starts a full
    day before its end, and the overtime is the cap. *)
Theorem scenarioB_cap (r : CalcResult) :
  compute startStr lengthH combineH fullH normalStartStr normalEndStr
    minRestH maxOvertimeH = Ok r ->
  exists rs ns ne s workStart workEnd ot,
    parseHHMMToMin startStr = Ok rs /\
    parseHHMMToMin normalStartStr = Ok ns /\
    parseHHMMToMin normalEndStr = Ok ne /\
    nth_error (Scenarios r) 1 = Some s /\
    Title s = "Full day + release (Overtime)" /\
    WorkHours s = fmtRange workStart workEnd /\
    TotalWork s = fmtRange workStart (Int.add rs (hoursToMin lengthH)) /\
    Overtime s = fmtHM ot /\
    let L := hoursToMin lengthH in
    let M := hoursToMin maxOvertimeH in
    let F := fullDayUsed fullH (Int.sub ne ns) in
    let releaseEnd := Int.add rs L in
    (L <= M -> workEnd = rs /\ workStart = Int.sub rs F /\ ot = L) /\
    (M < L ->
     Int.sub releaseEnd workEnd = M /\ workStart = Int.sub workEnd F /\ ot = M).
Proof.
  intros Hc.
  pose proof (hoursToMin_range maxOvertimeH) as BM.
  compute_inv Hc rs ns ne.
  all: exists rs, ns, ne; cbn [Scenarios app nth_error].
  all: do 4 eexists.
  all: repeat (split; [assumption |]).
  all: repeat (split; [reflexivity |]).
  all: cbv zeta; rewrite Z.gtb_ltb in Ecap.
  - apply Z.ltb_lt in Ecap. split; [lia |]. intros _.
    split; [apply IntFacts.sub_sub_cancel; exact BM |].
    split; reflexivity.
  - apply Z.ltb_ge in Ecap. split; [| lia]. intros _.
    repeat split; reflexivity.
Qed.

(** C3: for a successful run whose next-day end, computed in the integers
    from the later of release end plus minimum rest and the normal start of
    the calendar day after the release end, is an [int] (so that no sum of
    the program wraps around), the next day of every scenario starts at
    that later minute; so it starts at least at each of the two; and it ends
    a normal day later. *)
Theorem next_day_start (r : CalcResult) :
  compute startStr lengthH combineH fullH normalStartStr normalEndStr
    minRestH maxOvertimeH = Ok r ->
  exists rs ns ne,
    parseHHMMToMin startStr = Ok rs /\
    parseHHMMToMin normalStartStr = Ok ns /\
    parseHHMMToMin normalEndStr = Ok ne /\
    let L := hoursToMin lengthH in
    let R := hoursToMin minRestH in
    let releaseEnd := rs + L in
    let followingDayStart := (releaseEnd / 1440 + 1) * 1440 + ns in
    let nextStart := Z.max (releaseEnd + R) followingDayStart in
    let nextEnd := nextStart + (ne - ns) in
    nextEnd <= Int.max_int ->
    calcNextDayStartAbs (Int.add rs L) ns R = nextStart /\
    Forall (fun s => NextDayHours s = fmtRange nextStart nextEnd)
      (Scenarios r) /\
    releaseEnd + R <= nextStart /\
    followingDayStart <= nextStart.
Proof.
  intros Hc.
  pose proof (hoursToMin_range lengthH) as BL.
  pose proof (hoursToMin_range minRestH) as BR.
  assert (Hshape :
    exists rs ns ne,
      parseHHMMToMin startStr = Ok rs /\
      parseHHMMToMin normalStartStr = Ok ns /\
      parseHHMMToMin normalEndStr = Ok ne /\
      0 < Int.sub ne ns /\
      0 < hoursToMin minRestH /\
      Forall (fun s => NextDayHours s =
                fmtRange
                  (calcNextDayStartAbs (Int.add rs (hoursToMin lengthH)) ns
                     (hoursToMin minRestH))
                  (Int.add
                     (calcNextDayStartAbs (Int.add rs (hoursToMin lengthH)) ns
                        (hoursToMin minRestH))
                     (Int.sub ne ns)))
        (Scenarios r)).
  { compute_inv Hc rs ns ne.
    all: exists rs, ns, ne; repeat (split; [assumption |]).
    all: cbn [Scenarios app]; split_third.
    all: repeat constructor. }
  destruct Hshape as (rs & ns & ne & Hrs & Hns & Hne & Hday & HR & Hall).
  exists rs, ns, ne. repeat (split; [assumption |]).
  pose proof (parseHHMMToMin_range _ _ Hrs) as Brs.
  pose proof (parseHHMMToMin_range _ _ Hns) as Bns.
  pose proof (parseHHMMToMin_range _ _ Hne) as Bne.
  assert (Hn : Int.sub ne ns = ne - ns) by (unwrap; lia).
  rewrite Hn in Hall, Hday. cbv zeta.
  set (L := hoursToMin lengthH) in *. set (R := hoursToMin minRestH) in *.
  intros Hroom. unfold Int.min_int, Int.max_int in *.
  pose proof (Z.div_mod (rs + L) 1440 ltac:(lia)) as Hdm.
  pose proof (Z.mod_pos_bound (rs + L) 1440 ltac:(lia)) as Hm.
  assert (Hend : Int.add rs L = rs + L) by (unwrap; reflexivity).
  assert (Hstart :
    calcNextDayStartAbs (Int.add rs L) ns R
    = Z.max (rs + L + R) (((rs + L) / 1440 + 1) * 1440 + ns)).
  { rewrite Hend. unfold calcNextDayStartAbs.
    rewrite floorDiv_1440 by (unfold Int.min_int, Int.max_int; lia).
    rewrite maxInt_max. unwrap. apply Z.max_comm. }
  split; [exact Hstart |].
  split; [| lia].
  rewrite Hstart in Hall.
  replace (Int.add (Z.max (rs + L + R) (((rs + L) / 1440 + 1) * 1440 + ns))
             (ne - ns))
    with (Z.max (rs + L + R) (((rs + L) / 1440 + 1) * 1440 + ns) + (ne - ns))
    in Hall by (unwrap; reflexivity).
  exact Hall.
Qed.

(** C9: every scenario of a result carries the same release window and the
    same next-day hours, those computed from the parsed inputs before the
    scenarios are built; there are two scenarios, or three. *)
Theorem shared_ranges (r : CalcResult) :
  compute startStr lengthH combineH fullH normalStartStr normalEndStr
    minRestH maxOvertimeH = Ok r ->
  exists rs ns ne,
    parseHHMMToMin startStr = Ok rs /\
    parseHHMMToMin normalStartStr = Ok ns /\
    parseHHMMToMin normalEndStr = Ok ne /\
    let releaseEnd := Int.add rs (hoursToMin lengthH) in
    let nextStart := calcNextDayStartAbs releaseEnd ns (hoursToMin minRestH) in
    let nextEnd := Int.add nextStart (Int.sub ne ns) in
    Forall (fun s => ReleaseWindow s = fmtRange rs releaseEnd /\
                     NextDayHours s = fmtRange nextStart nextEnd)
      (Scenarios r) /\
    (forall s1 s2, In s1 (Scenarios r) -> In s2 (Scenarios r) ->
       ReleaseWindow s1 = ReleaseWindow s2 /\
       NextDayHours s1 = NextDayHours s2) /\
    List.length (Scenarios r) = (if Fle (Fconst 0) combineH then 3 else 2)%nat.
Proof.
  intros Hc.
  assert (Hshape :
    exists rs ns ne,
      parseHHMMToMin startStr = Ok rs /\
      parseHHMMToMin normalStartStr = Ok ns /\
      parseHHMMToMin normalEndStr = Ok ne /\
      Forall (fun s =>
                ReleaseWindow s = fmtRange rs (Int.add rs (hoursToMin lengthH)) /\
                NextDayHours s =
                fmtRange
                  (calcNextDayStartAbs (Int.add rs (hoursToMin lengthH)) ns
                     (hoursToMin minRestH))
                  (Int.add
                     (calcNextDayStartAbs (Int.add rs (hoursToMin lengthH)) ns
                        (hoursToMin minRestH))
                     (Int.sub ne ns)))
        (Scenarios r) /\
      List.length (Scenarios r) = (if Fle (Fconst 0) combineH then 3 else 2)%nat).
  { compute_inv Hc rs ns ne.
    all: exists rs, ns, ne; repeat (split; [assumption |]).
    all: cbn [Scenarios app]; split_third.
    all: split; [repeat constructor | reflexivity]. }
  destruct Hshape as (rs & ns & ne & Hrs & Hns & Hne & Hall & Hlen).
  exists rs, ns, ne. do 3 (split; [assumption |]). cbv zeta.
  split; [exact Hall |]. split; [| exact Hlen].
  intros s1 s2 H1 H2. rewrite Forall_forall in Hall.
  destruct (Hall s1 H1) as [-> ->]. destruct (Hall s2 H2) as [-> ->].
  split; reflexivity.
Qed.

End Scenarios.

(** ** Checking a decidable property on an interval *)

Lemma forallb_interval (P : Z -> bool) (lo : Z) (n : nat) :
  forallb P (interval lo n) = true ->
  forall z, lo <= z < lo + Z.of_nat n -> P z = true.
Proof.
  intros Hall z Hz. rewrite forallb_forall in Hall. apply Hall.
  unfold interval. apply in_map_iff. exists (Z.to_nat (z - lo)). split.
  - lia.
  - apply in_seq. lia.
Qed.

(** ** Clock strings *)

Lemma result_eqb_true (a : result Z error) (z : Z) :
  result_eqb a z = true -> a = Ok z.
Proof.
  destruct a as [v | e]; simpl; [| discriminate].
  intros Hv. apply Z.eqb_eq in Hv. now subst.
Qed.

(** C6: for a minute of the day, from 0 to 1439, [parseHHMMToMin] reads
    back what [fmtClock] wrote, which is the plain HH:MM, five characters
    without a day suffix. *)
Theorem parse_fmtClock (min : Z) :
  0 <= min <= 1439 ->
  parseHHMMToMin (fmtClock min) = Ok min /\
  fmtClock min = fmt_02d (min / 60) ++ ":" ++ fmt_02d (min mod 60) /\
  String.length (fmtClock min) = 5%nat.
Proof.
  intros Hmin.
  assert (Hall : forallb (fun z => result_eqb (parseHHMMToMin (fmtClock z)) z
                                   && plain_clock z)
                   (interval 0 1440) = true) by (vm_compute; reflexivity).
  pose proof (forallb_interval _ _ _ Hall min ltac:(lia)) as Hz.
  cbv beta in Hz. apply andb_true_iff in Hz. destruct Hz as [Hp Hc].
  unfold plain_clock in Hc. apply andb_true_iff in Hc. destruct Hc as [Hs Hl].
  split; [now apply result_eqb_true |].
  split; [now apply String.eqb_eq | now apply Nat.eqb_eq].
Qed.

(** ** Validation *)

Section Validation.

Context `{Platform}.

(** C7: when the normal day does not end strictly after it starts, [compute]
    returns an error and no result; it is the error of the normal day as soon
    as the checks made before it (the release start, the sign of the release
    length) pass. *)
Theorem normal_day_rejected
    (startStr normalStartStr normalEndStr : string)
    (lengthH combineH fullH minRestH maxOvertimeH : float64) (ns ne : Z) :
  parseHHMMToMin normalStartStr = Ok ns ->
  parseHHMMToMin normalEndStr = Ok ne ->
  ne - ns <= 0 ->
  (exists e, compute startStr lengthH combineH fullH normalStartStr normalEndStr
               minRestH maxOvertimeH = Err e) /\
  (forall rs, parseHHMMToMin startStr = Ok rs ->
              Fle lengthH (Fconst 0) = false ->
              compute startStr lengthH combineH fullH normalStartStr normalEndStr
                minRestH maxOvertimeH = Err ErrNormalDay).
Proof.
  intros Hns Hne Hlen.
  pose proof (parseHHMMToMin_range _ _ Hns) as Bns.
  pose proof (parseHHMMToMin_range _ _ Hne) as Bne.
  assert (Hday : (Int.sub ne ns <=? 0) = true)
    by (apply Z.leb_le; unwrap; lia).
  unfold compute. rewrite Hns, Hne, Hday. split.
  - destruct (parseHHMMToMin startStr) as [rs | e]; [| now exists e].
    destruct (Fle lengthH (Fconst 0)); eexists; reflexivity.
  - intros rs -> ->. reflexivity.
Qed.

End Validation.

(** ** Lengths that round to no minute *)

Lemma pow2_split (a b : Z) : 0 <= a -> 0 <= b -> 2 ^ (a + b) = 2 ^ a * 2 ^ b.
Proof. intros. apply Z.pow_add_r; assumption. Qed.




(** ** The comparison by values on valid floats *)

Lemma digits2_pos_bounds (m : positive) :
  2 ^ (Z.pos (digits2_pos m) - 1) <= Z.pos m < 2 ^ Z.pos (digits2_pos m).
Proof.
  induction m as [p IH | p IH |]; cbn [digits2_pos].
  - rewrite Pos2Z.inj_succ.
    replace (Z.succ (Z.pos (digits2_pos p)) - 1)
      with (1 + (Z.pos (digits2_pos p) - 1)) by lia.
    replace (Z.succ (Z.pos (digits2_pos p)))
      with (1 + Z.pos (digits2_pos p)) by lia.
    rewrite !(pow2_split 1) by lia. change (2 ^ 1) with 2. lia.
  - rewrite Pos2Z.inj_succ.
    replace (Z.succ (Z.pos (digits2_pos p)) - 1)
      with (1 + (Z.pos (digits2_pos p) - 1)) by lia.
    replace (Z.succ (Z.pos (digits2_pos p)))
      with (1 + Z.pos (digits2_pos p)) by lia.
    rewrite !(pow2_split 1) by lia. change (2 ^ 1) with 2. lia.
  - simpl. lia.
Qed.

(** A canonical mantissa at an exponent above the least one has 53 bits. *)
Lemma bounded_mantissa (m : positive) (e : Z) :
  bounded prec emax m e = true ->
  -1074 <= e /\ Z.pos m < 2 ^ 53 /\ (-1074 < e -> 2 ^ 52 <= Z.pos m).
Proof.
  unfold bounded, canonical_mantissa, fexp, SpecFloat.emin, prec, emax.
  intros Hb. apply andb_true_iff in Hb. destruct Hb as [Hc _].
  apply Z.eqb_eq in Hc.
  pose proof (digits2_pos_bounds m) as [Hlo Hhi].
  set (d := Z.pos (digits2_pos m)) in *.
  assert (Hd : 0 < d) by (subst d; lia).
  split; [lia |]. split.
  - assert (d <= 53) by lia.
    assert (2 ^ d <= 2 ^ 53) by (apply Z.pow_le_mono_r; lia). lia.
  - intros He. assert (d = 53) by lia. replace (d - 1) with 52 in Hlo by lia.
    exact Hlo.
Qed.

Lemma compare_bounded (m1 m2 : positive) (e1 e2 : Z) :
  bounded prec emax m1 e1 = true ->
  bounded prec emax m2 e2 = true ->
  (Z.pos m1 * 2 ^ (e1 - Z.min e1 e2) ?= Z.pos m2 * 2 ^ (e2 - Z.min e1 e2))
  = match e1 ?= e2 with
    | Lt => Lt
    | Gt => Gt
    | Eq => Pos.compare_cont Eq m1 m2
    end.
Proof.
  intros H1 H2.
  destruct (bounded_mantissa m1 e1 H1) as (L1 & U1 & N1).
  destruct (bounded_mantissa m2 e2 H2) as (L2 & U2 & N2).
  destruct (Z.compare_spec e1 e2) as [E | E | E].
  - subst e2. rewrite Z.min_id, Z.sub_diag. simpl (2 ^ 0).
    rewrite !Z.mul_1_r. reflexivity.
  - rewrite Z.min_l, Z.sub_diag by lia. simpl (2 ^ 0). rewrite Z.mul_1_r.
    apply Z.compare_lt_iff. specialize (N2 ltac:(lia)).
    assert (2 ^ 1 <= 2 ^ (e2 - e1)) by (apply Z.pow_le_mono_r; lia).
    change (2 ^ 1) with 2 in *. nia.
  - rewrite Z.min_r, Z.sub_diag by lia. simpl (2 ^ 0). rewrite Z.mul_1_r.
    apply Z.compare_gt_iff. specialize (N1 ltac:(lia)).
    assert (2 ^ 1 <= 2 ^ (e1 - e2)) by (apply Z.pow_le_mono_r; lia).
    change (2 ^ 1) with 2 in *. nia.
Qed.

(** On the floats of binary64 the comparison by values is the comparison of
    the standard library's specification of IEEE 754. *)
Lemma Fcompare_SFcompare (x y : float64) :
  valid_binary prec emax x = true ->
  valid_binary prec emax y = true ->
  Fcompare x y = SFcompare x y.
Proof.
  destruct x as [sx | sx | | sx mx ex], y as [sy | sy | | sy my ey];
    cbn [valid_binary]; intros Hx Hy;
    try reflexivity; try (destruct sx, sy; reflexivity).
  - unfold Fcompare, SFcompare, Fnum, Fexp. f_equal.
    pose proof (pow2_pos (ey - Z.min 0 ey) ltac:(lia)).
    rewrite Z.mul_0_l. destruct sy; cbn [cond_Zopp].
    + apply Z.compare_gt_iff. nia.
    + apply Z.compare_lt_iff. nia.
  - unfold Fcompare, SFcompare, Fnum, Fexp. f_equal.
    pose proof (pow2_pos (ex - Z.min ex 0) ltac:(lia)).
    rewrite Z.mul_0_l. destruct sx; cbn [cond_Zopp].
    + apply Z.compare_lt_iff. nia.
    + apply Z.compare_gt_iff. nia.
  - unfold Fcompare, SFcompare, Fnum, Fexp. f_equal.
    pose proof (compare_bounded mx my ex ey Hx Hy) as Hc.
    pose proof (pow2_pos (ex - Z.min ex ey) ltac:(lia)).
    pose proof (pow2_pos (ey - Z.min ex ey) ltac:(lia)).
    destruct sx, sy; cbn [cond_Zopp].
    + rewrite !Z.mul_opp_l, Z.compare_opp, Z.compare_antisym, Hc.
      destruct (ex ?= ey); reflexivity.
    + apply Z.compare_lt_iff. nia.
    + apply Z.compare_gt_iff. nia.
    + exact Hc.
Qed.

Section ZeroMinutes.

Context `{Platform}.



End ZeroMinutes.

(** ** The examples of the specification *)

Lemma compute_default `{Platform} :
  compute "18:30" (Fconst 4) (Fconst (-1)) (Fconst 0) "09:00" "17:30"
    (Fconst 11) (Fconst 4) = Ok default_result.
Proof. vm_compute. reflexivity. Qed.

(** C4, as amended: on the default example [compute] succeeds with normal
    day 8h30m, full day 8h30m, release window 18:30 to 22:30; the first
    scenario includes 4h00m, has no overtime and works 14:00 to 22:30 (the
    work ends with the included release, not at the release start); the
    second works 10:00 to 18:30 with 4h00m of overtime; the next day runs
    from 09:30 to 18:00 of the following day. *)
Theorem default_example `{Platform} :
  exists r sA sB,
    compute "18:30" (Fconst 4) (Fconst (-1)) (Fconst 0) "09:00" "17:30"
      (Fconst 11) (Fconst 4) = Ok r /\
    NormalLen r = "8h30m" /\ FullDay r = "8h30m" /\
    ReleaseStart r = "18:30" /\ ReleaseEnd r = "22:30" /\
    Scenarios r = [sA; sB] /\
    ReleaseIncluded sA = "4h00m" /\ Overtime sA = "0h00m" /\
    WorkHours sA = "14:00 -> 22:30" /\
    WorkHours sB = "10:00 -> 18:30" /\ Overtime sB = "4h00m" /\
    NextDayHours sA = "09:30 (+1d) -> 18:00 (+1d)" /\
    NextDayHours sB = "09:30 (+1d) -> 18:00 (+1d)".
Proof.
  do 3 eexists. split; [apply compute_default |].
  cbn. repeat split; reflexivity.
Qed.

(** The claim C4 as the specification words it, with the first scenario
    working 14:00 to 18:30, does not hold. *)
Lemma default_example_not_1830 :
  ~ (exists r sA sB,
       @compute amd64 "18:30" (Fconst 4) (Fconst (-1)) (Fconst 0) "09:00" "17:30"
         (Fconst 11) (Fconst 4) = Ok r /\
       NormalLen r = "8h30m" /\ FullDay r = "8h30m" /\
       ReleaseStart r = "18:30" /\ ReleaseEnd r = "22:30" /\
       Scenarios r = [sA; sB] /\
       ReleaseIncluded sA = "4h00m" /\ Overtime sA = "0h00m" /\
       WorkHours sA = "14:00 -> 18:30" /\
       WorkHours sB = "10:00 -> 18:30" /\ Overtime sB = "4h00m" /\
       NextDayHours sA = "09:30 (+1d) -> 18:00 (+1d)" /\
       NextDayHours sB = "09:30 (+1d) -> 18:00 (+1d)").
Proof.
  intros (r & sA & sB & Hc & _ & _ & _ & _ & Hs & _ & _ & Hw & _).
  rewrite compute_default in Hc. apply Ok_inj in Hc. subst r.
  cbn in Hs. injection Hs as <- _. cbn in Hw. discriminate Hw.
Qed.

Lemma compute_combine `{Platform} :
  compute "20:00" (Fconst 5) (Fconst 2) (Fconst 0) "09:00" "17:00"
    (Fconst 11) (Fconst 4) = Ok combine_result.
Proof. vm_compute. reflexivity. Qed.

(** C5: on the combine example [compute] succeeds; the full day is 8h; the
    third scenario includes 2h, the combine length, which is the least of
    combine, release length and full day; its overtime is 3h, within the cap
    of 4h, so nothing is derived again; it works 14:00 to 22:00, and in
    total 14:00 to 01:00 of the next day. *)
Theorem combine_example `{Platform} :
  exists r sA sB sC,
    compute "20:00" (Fconst 5) (Fconst 2) (Fconst 0) "09:00" "17:00"
      (Fconst 11) (Fconst 4) = Ok r /\
    FullDay r = "8h00m" /\
    Scenarios r = [sA; sB; sC] /\
    ReleaseIncluded sC = fmtHM 120 /\ ReleaseIncluded sC = "2h00m" /\
    Overtime sC = fmtHM 180 /\ Overtime sC = "3h00m" /\
    WorkHours sC = "14:00 -> 22:00" /\
    TotalWork sC = "14:00 -> 01:00 (+1d)" /\
    hoursToMin (Fconst 2) = 120 /\
    hoursToMin (Fconst 5) = 300 /\
    hoursToMin (Fconst 4) = 240 /\
    minInt (minInt (hoursToMin (Fconst 2)) (hoursToMin (Fconst 5))) 480 = 120 /\
    (Int.sub 300 120 >? hoursToMin (Fconst 4)) = false.
Proof.
  do 4 eexists. split; [apply compute_combine |].
  cbn [FullDay Scenarios combine_result].
  repeat split; vm_compute; reflexivity.
Qed.

(** ** A length that is not a number *)

(** The claim C1 without the restriction to non-negative minute values does
    not hold: a NaN release length passes [lengthH <= 0], and on amd64 its
    conversion to minutes is the least integer; the overtime of the second
    scenario is then the rendering of no number of minutes between 0 and
    the cap. *)
Lemma overtime_unbounded_for_NaN :
  ~ (forall r,
       @compute amd64 "18:30" S754_nan (Fconst (-1)) (Fconst 0) "09:00" "17:30"
         (Fconst 11) (Fconst 4) = Ok r ->
       Forall (fun s => exists ot,
                   Overtime s = fmtHM ot /\
                   0 <= ot <= Z.max (@hoursToMin amd64 (Fconst 4))
                                    (@hoursToMin amd64 S754_nan))
         (Scenarios r)).
Proof.
  intros Hall.
  assert (Hex : exists r s1 s2,
             @compute amd64 "18:30" S754_nan (Fconst (-1)) (Fconst 0)
               "09:00" "17:30" (Fconst 11) (Fconst 4) = Ok r /\
             Scenarios r = [s1; s2] /\
             Overtime s2 = "-153722867280912930h-8m").
  { do 3 eexists. split; [vm_compute; reflexivity |]. split; reflexivity. }
  destruct Hex as (r & s1 & s2 & Hc & Hs & Hot).
  specialize (Hall r Hc). rewrite Hs in Hall.
  apply Forall_inv_tail, Forall_inv in Hall.
  destruct Hall as (ot & Hfmt & Hb).
  change (Z.max _ _) with 240 in Hb. rewrite Hot in Hfmt.
  assert (Hno : forallb (fun z => negb (String.eqb "-153722867280912930h-8m"
                                          (fmtHM z)))
                  (interval 0 241) = true) by (vm_compute; reflexivity).
  pose proof (forallb_interval _ _ _ Hno ot ltac:(lia)) as Hz.
  cbv beta in Hz. rewrite <- Hfmt, String.eqb_refl in Hz. discriminate Hz.
Qed.

(** The restrictions on the full-day override and on the combine length are
    needed as well: on amd64 an infinite override, or an infinite combine
    length, leaves the third scenario with an overtime that renders no
    number of minutes between 0 and the release length. *)
Lemma overtime_unbounded_for_infinite_combine :
  exists r s,
    @compute amd64 "20:00" (Fconst 5) (S754_infinity false) (Fconst 0)
      "09:00" "17:00" (Fconst 11) (Fconst 4) = Ok r /\
    In s (Scenarios r) /\
    forall ot, 0 <= ot <= 300 -> Overtime s <> fmtHM ot.
Proof.
  do 2 eexists. split; [vm_compute; reflexivity |].
  split; [right; right; left; reflexivity |].
  cbn [Overtime]. intros ot Hot Hfmt.
  assert (Hno : forallb (fun z => negb (String.eqb "153722867280912925h08m"
                                          (fmtHM z)))
                  (interval 0 301) = true) by (vm_compute; reflexivity).
  pose proof (forallb_interval _ _ _ Hno ot ltac:(lia)) as Hz.
  cbv beta in Hz. rewrite <- Hfmt, String.eqb_refl in Hz. discriminate Hz.
Qed.

Lemma overtime_unbounded_for_infinite_override :
  exists r s,
    @compute amd64 "20:00" (Fconst 5) (Fconst 2) (S754_infinity false)
      "09:00" "17:00" (Fconst 11) (Fconst 4) = Ok r /\
    In s (Scenarios r) /\
    forall ot, 0 <= ot <= 300 -> Overtime s <> fmtHM ot.
Proof.
  do 2 eexists. split; [vm_compute; reflexivity |].
  split; [right; right; left; reflexivity |].
  cbn [Overtime]. intros ot Hot Hfmt.
  assert (Hno : forallb (fun z => negb (String.eqb "153722867280912925h08m"
                                          (fmtHM z)))
                  (interval 0 301) = true) by (vm_compute; reflexivity).
  pose proof (forallb_interval _ _ _ Hno ot ltac:(lia)) as Hz.
  cbv beta in Hz. rewrite <- Hfmt, String.eqb_refl in Hz. discriminate Hz.
Qed.

(** On arm64 the conversion of a NaN is 0, and the same input gives a
    release of no length. *)
Lemma NaN_length_on_arm64 :
  exists r,
    @compute arm64 "18:30" S754_nan (Fconst (-1)) (Fconst 0) "09:00" "17:30"
      (Fconst 11) (Fconst 4) = Ok r /\
    ReleaseLen r = "0h00m" /\
    Forall (fun s => Overtime s = "0h00m") (Scenarios r).
Proof.
  eexists. split; [vm_compute; reflexivity |].
  split; [reflexivity |]. repeat constructor.
Qed.

(** ** Sums that leave the integers *)

(** A minimum rest of 153722867280912896 hours is exactly 2^63 - 2048
    minutes, on every platform; added to a release end of 2100 it is no
    [int]. *)
Example long_rest_minutes :
  exact_minutes (Fconst 153722867280912896) = true /\
  @hoursToMin amd64 (Fconst 153722867280912896) = 9223372036854773760 /\
  @hoursToMin arm64 (Fconst 153722867280912896) = 9223372036854773760 /\
  Int.max_int < 2100 + 9223372036854773760.
Proof. vm_compute. repeat split; reflexivity. Qed.

(** The claim C3 without the restriction to sums within the integers does
    not hold. A release from 23:00 for 12 hours ends at minute 2100; with
    that minimum rest the program adds the two with wrap-around, and the
    next day starts at minute 3420, the normal start of the second day
    after, long before the rest is over. *)
Lemma next_day_start_overflow :
  ~ (forall r,
       @compute amd64 "23:00" (Fconst 12) (Fconst (-1)) (Fconst 0) "09:00"
         "17:30" (Fconst 153722867280912896) (Fconst 4) = Ok r ->
       exists rs ns ne,
         parseHHMMToMin "23:00" = Ok rs /\
         parseHHMMToMin "09:00" = Ok ns /\
         parseHHMMToMin "17:30" = Ok ne /\
         let L := @hoursToMin amd64 (Fconst 12) in
         let R := @hoursToMin amd64 (Fconst 153722867280912896) in
         let releaseEnd := rs + L in
         let followingDayStart := (releaseEnd / 1440 + 1) * 1440 + ns in
         let nextStart := Z.max (releaseEnd + R) followingDayStart in
         let nextEnd := nextStart + (ne - ns) in
         calcNextDayStartAbs (Int.add rs L) ns R = nextStart /\
         Forall (fun s => NextDayHours s = fmtRange nextStart nextEnd)
           (Scenarios r) /\
         releaseEnd + R <= nextStart /\
         followingDayStart <= nextStart).
Proof.
  intros Hall.
  assert (Hex : exists r,
             @compute amd64 "23:00" (Fconst 12) (Fconst (-1)) (Fconst 0)
               "09:00" "17:30" (Fconst 153722867280912896) (Fconst 4) = Ok r)
    by (eexists; vm_compute; reflexivity).
  destruct Hex as (r & Hc).
  destruct (Hall r Hc) as (rs & ns & ne & Hrs & Hns & Hne & Hnext & _).
  vm_compute in Hrs, Hns. injection Hrs as <-. injection Hns as <-.
  vm_compute in Hnext. discriminate Hnext.
Qed.

(** What the program shows at that input: the next day from minute 3420 to
    minute 3930, while release end plus minimum rest is minute
    9223372036854775860. *)
Example next_day_start_overflow_shown :
  exists r,
    @compute amd64 "23:00" (Fconst 12) (Fconst (-1)) (Fconst 0) "09:00"
      "17:30" (Fconst 153722867280912896) (Fconst 4) = Ok r /\
    ReleaseEnd r = fmtClock 2100 /\
    Forall (fun s => NextDayHours s = fmtRange 3420 3930) (Scenarios r) /\
    calcNextDayStartAbs 2100 540 9223372036854773760 = 3420 /\
    3420 < 2100 + 9223372036854773760.
Proof.
  eexists. split; [vm_compute; reflexivity |].
  split; [reflexivity |]. split; [repeat constructor |].
  split; [vm_compute; reflexivity | lia].
Qed.

(** The same with the release length: a release of that many hours from
    18:30 ends at an [int], and so does its end plus a rest of 11 hours; but
    the normal start of the following calendar day is none, and the next day
    starts when the rest is over, on the calendar day of the release end and
    before the following day's normal start. *)
Example next_day_start_same_day :
  exists r,
    @compute amd64 "18:30" (Fconst 153722867280912896) (Fconst (-1))
      (Fconst 0) "09:00" "17:30" (Fconst 11) (Fconst 4) = Ok r /\
    let releaseEnd := 1110 + 9223372036854773760 in
    let nextStart := calcNextDayStartAbs releaseEnd 540 660 in
    ReleaseEnd r = fmtClock releaseEnd /\
    releaseEnd <= Int.max_int /\
    nextStart = releaseEnd + 660 /\
    nextStart / 1440 = releaseEnd / 1440 /\
    nextStart < (releaseEnd / 1440 + 1) * 1440 + 540.
Proof.
  eexists. split; [vm_compute; reflexivity |].
  cbv zeta. split; [vm_compute; reflexivity |].
  vm_compute. repeat split; (reflexivity || discriminate).
Qed.

(** ** The theorems at concrete inputs *)

Lemma overtime_bounds_witness :
  @compute amd64 "20:00" (Fconst 5) (Fconst 2) (Fconst 8) "09:00" "17:00"
    (Fconst 11) (Fconst 4) = Ok combine_result /\
  0 <= @hoursToMin amd64 (Fconst 5) /\
  (Flt (Fconst 0) (Fconst 8) = true -> 0 <= @hoursToMin amd64 (Fconst 8)) /\
  (Fle (Fconst 0) (Fconst 2) = true -> 0 <= @hoursToMin amd64 (Fconst 2)) /\
  Forall (fun s => exists ot,
              Overtime s = fmtHM ot /\
              0 <= ot <= Z.max (@hoursToMin amd64 (Fconst 4))
                               (@hoursToMin amd64 (Fconst 5)))
    (Scenarios combine_result).
Proof.
  assert (Hc : @compute amd64 "20:00" (Fconst 5) (Fconst 2) (Fconst 8)
                 "09:00" "17:00" (Fconst 11) (Fconst 4) = Ok combine_result)
    by (vm_compute; reflexivity).
  assert (HL : 0 <= @hoursToMin amd64 (Fconst 5)) by (vm_compute; discriminate).
  assert (HF : Flt (Fconst 0) (Fconst 8) = true -> 0 <= @hoursToMin amd64 (Fconst 8))
    by (intros _; vm_compute; discriminate).
  assert (HX : Fle (Fconst 0) (Fconst 2) = true -> 0 <= @hoursToMin amd64 (Fconst 2))
    by (intros _; vm_compute; discriminate).
  repeat (split; [assumption |]).
  exact (@overtime_bounds amd64 "20:00" "09:00" "17:00" (Fconst 5) (Fconst 2)
           (Fconst 8) (Fconst 11) (Fconst 4) combine_result Hc HL HF HX).
Defined.

Lemma scenarioB_cap_witness :
  exists rs ns ne s workStart workEnd ot,
    parseHHMMToMin "20:00" = Ok rs /\
    parseHHMMToMin "09:00" = Ok ns /\
    parseHHMMToMin "17:00" = Ok ne /\
    nth_error (Scenarios combine_result) 1 = Some s /\
    Title s = "Full day + release (Overtime)" /\
    WorkHours s = fmtRange workStart workEnd /\
    TotalWork s = fmtRange workStart (Int.add rs (@hoursToMin amd64 (Fconst 5))) /\
    Overtime s = fmtHM ot /\
    let L := @hoursToMin amd64 (Fconst 5) in
    let M := @hoursToMin amd64 (Fconst 4) in
    let F := @fullDayUsed amd64 (Fconst 8) (Int.sub ne ns) in
    let releaseEnd := Int.add rs L in
    (L <= M -> workEnd = rs /\ workStart = Int.sub rs F /\ ot = L) /\
    (M < L ->
     Int.sub releaseEnd workEnd = M /\ workStart = Int.sub workEnd F /\ ot = M).
Proof.
  apply (@scenarioB_cap amd64 "20:00" "09:00" "17:00" (Fconst 5) (Fconst 2)
           (Fconst 8) (Fconst 11) (Fconst 4) combine_result).
  vm_compute. reflexivity.
Defined.

Lemma next_day_start_witness :
  Z.max (1350 + 660) ((1350 / 1440 + 1) * 1440 + 540) + (1050 - 540)
  <= Int.max_int /\
  exists rs ns ne,
    parseHHMMToMin "18:30" = Ok rs /\
    parseHHMMToMin "09:00" = Ok ns /\
    parseHHMMToMin "17:30" = Ok ne /\
    let L := @hoursToMin amd64 (Fconst 4) in
    let R := @hoursToMin amd64 (Fconst 11) in
    let releaseEnd := rs + L in
    let followingDayStart := (releaseEnd / 1440 + 1) * 1440 + ns in
    let nextStart := Z.max (releaseEnd + R) followingDayStart in
    let nextEnd := nextStart + (ne - ns) in
    nextEnd <= Int.max_int ->
    calcNextDayStartAbs (Int.add rs L) ns R = nextStart /\
    Forall (fun s => NextDayHours s = fmtRange nextStart nextEnd)
      (Scenarios default_result) /\
    releaseEnd + R <= nextStart /\
    followingDayStart <= nextStart.
Proof.
  split; [vm_compute; discriminate |].
  apply (@next_day_start amd64 "18:30" "09:00" "17:30" (Fconst 4) (Fconst (-1))
           (Fconst 0) (Fconst 11) (Fconst 4) default_result).
  vm_compute. reflexivity.
Defined.

Lemma parse_fmtClock_witness :
  0 <= 1110 <= 1439 /\
  parseHHMMToMin (fmtClock 1110) = Ok 1110 /\
  fmtClock 1110 = fmt_02d (1110 / 60) ++ ":" ++ fmt_02d (1110 mod 60) /\
  String.length (fmtClock 1110) = 5%nat.
Proof.
  split; [lia |]. apply (parse_fmtClock 1110). lia.
Defined.

Lemma normal_day_rejected_witness :
  parseHHMMToMin "17:00" = Ok 1020 /\
  parseHHMMToMin "09:00" = Ok 540 /\
  540 - 1020 <= 0 /\
  (exists e, @compute amd64 "18:30" (Fconst 4) (Fconst (-1)) (Fconst 0)
               "17:00" "09:00" (Fconst 11) (Fconst 4) = Err e) /\
  (forall rs, parseHHMMToMin "18:30" = Ok rs ->
              Fle (Fconst 4) (Fconst 0) = false ->
              @compute amd64 "18:30" (Fconst 4) (Fconst (-1)) (Fconst 0)
                "17:00" "09:00" (Fconst 11) (Fconst 4) = Err ErrNormalDay).
Proof.
  assert (Hns : parseHHMMToMin "17:00" = Ok 1020) by (vm_compute; reflexivity).
  assert (Hne : parseHHMMToMin "09:00" = Ok 540) by (vm_compute; reflexivity).
  assert (Hlen : 540 - 1020 <= 0) by lia.
  repeat (split; [assumption |]).
  exact (@normal_day_rejected amd64 "18:30" "17:00" "09:00" (Fconst 4)
           (Fconst (-1)) (Fconst 0) (Fconst 11) (Fconst 4) 1020 540 Hns Hne Hlen).
Defined.

Lemma shared_ranges_witness :
  exists rs ns ne,
    parseHHMMToMin "20:00" = Ok rs /\
    parseHHMMToMin "09:00" = Ok ns /\
    parseHHMMToMin "17:00" = Ok ne /\
    let releaseEnd := Int.add rs (@hoursToMin amd64 (Fconst 5)) in
    let nextStart :=
      calcNextDayStartAbs releaseEnd ns (@hoursToMin amd64 (Fconst 11)) in
    let nextEnd := Int.add nextStart (Int.sub ne ns) in
    Forall (fun s => ReleaseWindow s = fmtRange rs releaseEnd /\
                     NextDayHours s = fmtRange nextStart nextEnd)
      (Scenarios combine_result) /\
    (forall s1 s2, In s1 (Scenarios combine_result) ->
                   In s2 (Scenarios combine_result) ->
       ReleaseWindow s1 = ReleaseWindow s2 /\
       NextDayHours s1 = NextDayHours s2) /\
    List.length (Scenarios combine_result)
    = (if Fle (Fconst 0) (Fconst 2) then 3 else 2)%nat.
Proof.
  apply (@shared_ranges amd64 "20:00" "09:00" "17:00" (Fconst 5) (Fconst 2)
           (Fconst 8) (Fconst 11) (Fconst 4) combine_result).
  vm_compute. reflexivity.
Defined.


(** * Further properties of the helpers *)

(** ** Floor division and remainder *)

Lemma quot_in_range (a b : Z) :
  Int.min_int <= a <= Int.max_int ->
  ~ (a = Int.min_int /\ b = -1) ->
  Int.min_int <= Z.quot a b <= Int.max_int.
Proof.
  unfold Int.min_int, Int.max_int. intros Ha Hov.
  destruct (Z.eq_dec b 0) as [-> | Hb].
  - rewrite Z.quot_0_r_ext by reflexivity. lia.
  - destruct (Z.le_gt_cases 0 a) as [Hp | Hn].
    + pose proof (Z.mul_quot_le a b Hp Hb). nia.
    + pose proof (Z.mul_quot_ge a b ltac:(lia) Hb) as Hq.
      assert (Z.quot a b < 2 ^ 63 \/ Z.quot a b >= 2 ^ 63) as [? | Hbig] by lia;
        [nia |].
      exfalso. apply Hov. nia.
Qed.

Lemma rem_sign_bounds (a b : Z) :
  b <> 0 ->
  (0 <= a -> 0 <= Z.rem a b < Z.abs b) /\
  (a <= 0 -> - Z.abs b < Z.rem a b <= 0).
Proof.
  intros Hb. pose proof (Z.rem_bound_abs a b Hb) as Hr. split; intros Ha.
  - pose proof (Z.rem_nonneg a b Hb Ha). lia.
  - pose proof (Z.rem_nonpos a b Hb Ha). lia.
Qed.

Lemma floorDiv_div (a b : Z) :
  Int.min_int <= a <= Int.max_int ->
  ~ (a = Int.min_int /\ b = -1) ->
  floorDiv a b = a / b.
Proof.
  intros Ha Hov. unfold floorDiv.
  destruct (Z.eqb_spec b 0) as [-> | Hb0]; [now rewrite Z.div_0_r |].
  unfold Int.quot, Int.rem.
  pose proof (quot_in_range a b Ha Hov) as Hq.
  rewrite (IntFacts.wrap_small _ Hq).
  pose proof (Z.quot_rem' a b) as Hqr.
  destruct (rem_sign_bounds a b Hb0) as [Hrp Hrn].
  destruct (Z.eqb_spec (Z.rem a b) 0) as [Hr0 | Hr0]; cbn [negb andb].
  - apply Z.div_unique with (r := 0); lia.
  - rewrite !Z.gtb_ltb.
    destruct (Z.ltb_spec 0 (Z.rem a b)) as [Hr | Hr],
             (Z.ltb_spec 0 b) as [Hbp | Hbp]; cbn [Bool.eqb negb].
    + apply Z.div_unique with (r := Z.rem a b); lia.
    + assert (Hq1 : Int.sub (Z.quot a b) 1 = Z.quot a b - 1).
      { unfold Int.sub. apply IntFacts.wrap_small.
        unfold Int.min_int, Int.max_int in *. nia. }
      rewrite Hq1. apply Z.div_unique with (r := Z.rem a b + b); lia.
    + assert (Hq1 : Int.sub (Z.quot a b) 1 = Z.quot a b - 1).
      { unfold Int.sub. apply IntFacts.wrap_small.
        unfold Int.min_int, Int.max_int in *. nia. }
      rewrite Hq1. apply Z.div_unique with (r := Z.rem a b + b); lia.
    + apply Z.div_unique with (r := Z.rem a b); lia.
Qed.

(** X1: [floorDiv] is the floor of the exact quotient for every divisor that
    is not zero, of either sign, and 0 for the divisor zero (as the quotient
    [a / b] of the integers is); the one exception is the least integer
    divided by -1, whose quotient is no [int] and comes back as the least
    integer. *)
Theorem floorDiv_floor (a b : Z) :
  Int.min_int <= a <= Int.max_int ->
  (~ (a = Int.min_int /\ b = -1) -> floorDiv a b = a / b) /\
  floorDiv a 0 = 0 /\
  floorDiv Int.min_int (-1) = Int.min_int.
Proof.
  intros Ha. split; [apply floorDiv_div; exact Ha |].
  split; [reflexivity | vm_compute; reflexivity].
Qed.

(** X2: for a positive divisor [mod_] is the remainder of the floor
    division: it lies from 0 up to the divisor, excluded, and with
    [floorDiv] it gives the dividend back. *)
Theorem mod_floorDiv (a b : Z) :
  Int.min_int <= a <= Int.max_int ->
  0 < b <= Int.max_int ->
  mod_ a b = a mod b /\
  0 <= mod_ a b < b /\
  a = b * floorDiv a b + mod_ a b.
Proof.
  intros Ha Hb.
  assert (Hm : mod_ a b = a mod b).
  { unfold mod_, Int.rem, Int.add.
    pose proof (Z.quot_rem' a b) as Hqr.
    destruct (rem_sign_bounds a b ltac:(lia)) as [Hrp Hrn].
    destruct (Z.ltb_spec (Z.rem a b) 0) as [Hr | Hr].
    - rewrite IntFacts.wrap_small
        by (unfold Int.min_int, Int.max_int in *; lia).
      apply Z.mod_unique with (q := Z.quot a b - 1); lia.
    - apply Z.mod_unique with (q := Z.quot a b); lia. }
  assert (Hov : ~ (a = Int.min_int /\ b = -1)) by lia.
  rewrite Hm.
  pose proof (Z.mod_pos_bound a b ltac:(lia)).
  pose proof (Z.div_mod a b ltac:(lia)).
  split; [reflexivity |]. split; [lia |].
  rewrite (floorDiv_div a b Ha Hov). lia.
Qed.

(** ** Strings *)

Module StringFacts.

Lemma app_assoc (a b c : string) : (a ++ b) ++ c = a ++ (b ++ c).
Proof. induction a as [| x a IH]; simpl; [reflexivity | now rewrite IH]. Qed.

Lemma app_nil_r (a : string) : a ++ EmptyString = a.
Proof. induction a as [| x a IH]; simpl; [reflexivity | now rewrite IH]. Qed.

Lemma length_app (a b : string) :
  String.length (a ++ b) = (String.length a + String.length b)%nat.
Proof. induction a as [| x a IH]; simpl; [reflexivity | now rewrite IH]. Qed.

(** Equal concatenations with left parts of one length have equal parts. *)
Lemma app_inj (a b x y : string) :
  String.length a = String.length b ->
  a ++ x = b ++ y -> a = b /\ x = y.
Proof.
  revert b. induction a as [| c a IH]; intros [| d b] Hlen Heq;
    simpl in *; try discriminate.
  - now split.
  - injection Heq as -> Heq. injection Hlen as Hlen.
    destruct (IH b Hlen Heq) as [-> ->]. now split.
Qed.

Lemma app_inv_tail (a b x : string) : a ++ x = b ++ x -> a = b.
Proof.
  intros Heq. apply (app_inj a b x x); [| exact Heq].
  apply (f_equal String.length) in Heq. rewrite !length_app in Heq. lia.
Qed.

Lemma rev_string_app (s acc : string) :
  rev_string s acc = rev_string s EmptyString ++ acc.
Proof.
  revert acc. induction s as [| c s IH]; intros acc; simpl; [reflexivity |].
  rewrite (IH (String c acc)), (IH (String c EmptyString)), app_assoc.
  reflexivity.
Qed.

Lemma rev_string_snoc (s : string) (c : ascii) :
  rev_string (s ++ String c EmptyString) EmptyString
  = String c (rev_string s EmptyString).
Proof.
  assert (Hgen : forall acc, rev_string (s ++ String c EmptyString) acc
                             = String c (rev_string s EmptyString) ++ acc).
  { induction s as [| d s IH]; intros acc; simpl; [reflexivity |].
    rewrite IH, (rev_string_app s (String d EmptyString)). simpl.
    now rewrite app_assoc. }
  rewrite Hgen. apply app_nil_r.
Qed.

Lemma rev_string_involutive (s : string) :
  rev_string (rev_string s EmptyString) EmptyString = s.
Proof.
  induction s as [| c s IH]; simpl; [reflexivity |].
  rewrite (rev_string_app s (String c EmptyString)), rev_string_snoc, IH.
  reflexivity.
Qed.

End StringFacts.

(** A byte that begins no white space: an ASCII byte that is not a space. *)
Lemma trim_left_plain (c : ascii) (r : string) :
  plain_byte c = true -> trim_left (String c r) = String c r.
Proof.
  intros Hc. assert (Hall : forallb (fun n : Z =>
      let a := ascii_of_N (Z.to_N n) in
      negb (plain_byte a)
      || (negb (ascii_space a) && negb (byte_is a 194) && negb (byte_is a 225)
          && negb (byte_is a 226) && negb (byte_is a 227)))
    (interval 0 256) = true) by (vm_compute; reflexivity).
  pose proof (forallb_interval _ _ _ Hall (Z.of_N (N_of_ascii c))) as Hb.
  pose proof (N_ascii_bounded c) as Hlt.
  specialize (Hb ltac:(lia)). cbv beta zeta in Hb.
  rewrite N2Z.id, ascii_N_embedding, Hc in Hb. cbn [negb orb] in Hb.
  repeat (apply andb_true_iff in Hb; destruct Hb as [Hb ?]).
  repeat match goal with
         | Hn : negb _ = true |- _ => apply negb_true_iff in Hn
         end.
  cbn [trim_left]. rewrite Hb.
  unfold space2, space3.
  repeat match goal with
         | Hn : byte_is c _ = false |- _ => rewrite Hn
         end.
  cbn [andb orb].
  destruct r as [| b [| d r3]]; reflexivity.
Qed.

Lemma trim_left_rev_plain (c : ascii) (r : string) :
  plain_byte c = true -> trim_left_rev (String c r) = String c r.
Proof.
  unfold plain_byte. intros Hc. apply andb_true_iff in Hc.
  destruct Hc as [Hlt Hsp]. apply N.ltb_lt in Hlt. apply negb_true_iff in Hsp.
  cbn [trim_left_rev]. rewrite Hsp.
  assert (Hne : forall n, (128 <= n)%N -> byte_is c n = false)
    by (intros n Hn; unfold byte_is; apply N.eqb_neq; lia).
  destruct r as [| b [| d r3]]; try reflexivity.
  - unfold space2. rewrite !Hne by lia. now rewrite andb_false_r.
  - unfold space2, space3. rewrite !Hne by lia.
    replace (128 <=? N_of_ascii c)%N with false
      by (symmetry; apply N.leb_gt; lia).
    replace (N_of_ascii c =? 168)%N with false
      by (symmetry; apply N.eqb_neq; lia).
    replace (N_of_ascii c =? 169)%N with false
      by (symmetry; apply N.eqb_neq; lia).
    replace (N_of_ascii c =? 175)%N with false
      by (symmetry; apply N.eqb_neq; lia).
    now rewrite !andb_false_r.
Qed.

(** [TrimSpace] leaves a string alone when its first and its last byte are
    plain. *)
Lemma TrimSpace_plain (c d : ascii) (a : string) :
  plain_byte c = true -> plain_byte d = true ->
  TrimSpace (String c (a ++ String d EmptyString))
  = String c (a ++ String d EmptyString).
Proof.
  intros Hc Hd. unfold TrimSpace. rewrite (trim_left_plain c _ Hc).
  change (String c (a ++ String d EmptyString))
    with (String c a ++ String d EmptyString).
  rewrite StringFacts.rev_string_snoc, (trim_left_rev_plain d _ Hd).
  rewrite <- StringFacts.rev_string_snoc.
  apply StringFacts.rev_string_involutive.
Qed.

(** ** Decimal numerals *)

Lemma string_forall_app (p : ascii -> bool) (a b : string) :
  string_forall p (a ++ b) = string_forall p a && string_forall p b.
Proof.
  induction a as [| c a IH]; simpl; [reflexivity |].
  now rewrite IH, andb_assoc.
Qed.

Lemma string_forall_impl (p q : ascii -> bool) (s : string) :
  (forall c, p c = true -> q c = true) ->
  string_forall p s = true -> string_forall q s = true.
Proof.
  intros Hpq. induction s as [| c s IH]; simpl; [reflexivity |].
  intros Hs. apply andb_true_iff in Hs. destruct Hs as [Hc Hs].
  now rewrite (Hpq c Hc), (IH Hs).
Qed.

Lemma string_of_uint_digits (d : Decimal.uint) :
  string_forall is_digit (NilEmpty.string_of_uint d) = true.
Proof. induction d; simpl; try rewrite IHd; reflexivity. Qed.

Lemma fmt_d_chars (n : Z) : string_forall is_digit_or_minus (fmt_d n) = true.
Proof.
  assert (Hu : forall u, string_forall is_digit_or_minus
                           (NilZero.string_of_uint u) = true).
  { intros u. apply (string_forall_impl is_digit).
    - intros c Hc. unfold is_digit_or_minus. now rewrite Hc.
    - destruct u; try apply string_of_uint_digits. reflexivity. }
  unfold fmt_d, NilZero.string_of_int.
  destruct (Z.to_int n) as [u | u]; [apply Hu |].
  cbn [string_forall]. now rewrite Hu.
Qed.

Lemma read_fmt_d (n : Z) : read_d (fmt_d n) = Some n.
Proof.
  unfold read_d, fmt_d. rewrite NilZero.isi.
  - cbn [option_map]. now rewrite DecimalZ.of_to.
  - destruct n as [| p | p]; cbn; try discriminate.
    intros E. injection E as E. revert E. apply DecimalPos.Unsigned.to_uint_nonnil.
  - destruct n as [| p | p]; cbn; try discriminate.
    intros E. injection E as E. revert E. apply DecimalPos.Unsigned.to_uint_nonnil.
Qed.

Lemma fmt_d_inj (n n' : Z) : fmt_d n = fmt_d n' -> n = n'.
Proof.
  intros E. apply (f_equal read_d) in E. rewrite !read_fmt_d in E.
  now injection E.
Qed.

Lemma two_digits_spec (n : Z) :
  0 <= n < 100 ->
  exists a b,
    fmt_02d n = String a (String b EmptyString) /\
    is_digit a = true /\ is_digit b = true /\
    Atoi (fmt_02d n) = Some n.
Proof.
  intros Hn.
  assert (Hall : forallb two_digits (interval 0 100) = true)
    by (vm_compute; reflexivity).
  pose proof (forallb_interval _ _ _ Hall n ltac:(lia)) as Ht.
  unfold two_digits in Ht.
  destruct (fmt_02d n) as [| a [| b [| ? ?]]]; try discriminate.
  exists a, b. apply andb_true_iff in Ht. destruct Ht as [Hd Ha].
  apply andb_true_iff in Hd. destruct Hd as [Hda Hdb].
  destruct (Atoi _) as [v |]; [| discriminate].
  apply Z.eqb_eq in Ha. subst v. repeat split; assumption.
Qed.

Lemma fmt_02d_inj (n n' : Z) :
  0 <= n < 100 -> 0 <= n' < 100 -> fmt_02d n = fmt_02d n' -> n = n'.
Proof.
  intros Hn Hn' E.
  destruct (two_digits_spec n Hn) as (? & ? & _ & _ & _ & Ha).
  destruct (two_digits_spec n' Hn') as (? & ? & _ & _ & _ & Ha').
  rewrite E, Ha' in Ha. now injection Ha.
Qed.

(** ** The shape of a clock string *)

Lemma fmtClock_split (min : Z) :
  Int.min_int <= min <= Int.max_int ->
  fmtClock min = clock_of_day (min mod 1440) ++ day_suffix (min / 1440).
Proof.
  intros Hmin. unfold fmtClock, clock_of_day, day_suffix.
  rewrite (floorDiv_1440 min Hmin), mod_1440.
  pose proof (Z.mod_pos_bound min 1440 ltac:(lia)) as Ht.
  set (t := min mod 1440) in *.
  assert (Hq : Int.quot t 60 = t / 60).
  { unfold Int.quot. rewrite Z.quot_div_nonneg by lia.
    apply IntFacts.wrap_small. unfold Int.min_int, Int.max_int.
    pose proof (Z.div_pos t 60 ltac:(lia) ltac:(lia)).
    pose proof (Z.div_le_upper_bound t 60 1440 ltac:(lia) ltac:(lia)). lia. }
  assert (Hr : Int.rem t 60 = t mod 60)
    by (unfold Int.rem; apply Z.rem_mod_nonneg; lia).
  rewrite Hq, Hr. destruct (min / 1440 =? 0).
  - now rewrite StringFacts.app_nil_r.
  - now rewrite !StringFacts.app_assoc.
Qed.

Lemma clock_of_day_chars (t : Z) :
  0 <= t < 1440 ->
  exists a1 a2 b1 b2,
    clock_of_day t
    = String a1 (String a2 (String ":" (String b1 (String b2 EmptyString)))) /\
    is_digit a1 = true /\ is_digit a2 = true /\
    is_digit b1 = true /\ is_digit b2 = true /\
    Atoi (String a1 (String a2 EmptyString)) = Some (t / 60) /\
    Atoi (String b1 (String b2 EmptyString)) = Some (t mod 60).
Proof.
  intros Ht.
  pose proof (Z.div_pos t 60 ltac:(lia) ltac:(lia)) as Hh0.
  pose proof (Z.div_lt_upper_bound t 60 24 ltac:(lia) ltac:(lia)) as Hh1.
  pose proof (Z.mod_pos_bound t 60 ltac:(lia)) as Hm.
  destruct (two_digits_spec (t / 60) ltac:(lia)) as (a1 & a2 & Ea & ? & ? & Ha).
  destruct (two_digits_spec (t mod 60) ltac:(lia)) as (b1 & b2 & Eb & ? & ? & Hb).
  exists a1, a2, b1, b2. unfold clock_of_day. rewrite Ea in *. rewrite Eb in *.
  repeat split; try assumption.
Qed.

Lemma clock_of_day_inj (t t' : Z) :
  0 <= t < 1440 -> 0 <= t' < 1440 ->
  clock_of_day t = clock_of_day t' -> t = t'.
Proof.
  intros Ht Ht' E.
  destruct (clock_of_day_chars t Ht) as (a1 & a2 & b1 & b2 & E1 & _ & _ & _ & _ & Ha & Hb).
  destruct (clock_of_day_chars t' Ht') as (c1 & c2 & d1 & d2 & E2 & _ & _ & _ & _ & Hc & Hd).
  rewrite E1, E2 in E. injection E as -> -> -> ->.
  rewrite Hc in Ha. rewrite Hd in Hb. injection Ha as Ha. injection Hb as Hb.
  pose proof (Z.div_mod t 60 ltac:(lia)). pose proof (Z.div_mod t' 60 ltac:(lia)).
  lia.
Qed.

Lemma clock_of_day_length (t : Z) :
  0 <= t < 1440 -> String.length (clock_of_day t) = 5%nat.
Proof.
  intros Ht. destruct (clock_of_day_chars t Ht) as (? & ? & ? & ? & E & _).
  now rewrite E.
Qed.

Lemma day_suffix_inj (d d' : Z) : day_suffix d = day_suffix d' -> d = d'.
Proof.
  unfold day_suffix.
  destruct (Z.eqb_spec d 0) as [-> | Hd], (Z.eqb_spec d' 0) as [-> | Hd'];
    try reflexivity; try discriminate.
  cbn [String.append]. intros E. injection E as E.
  apply StringFacts.app_inv_tail in E. now apply fmt_d_inj.
Qed.

Lemma fmtClock_injective (a b : Z) :
  Int.min_int <= a <= Int.max_int ->
  Int.min_int <= b <= Int.max_int ->
  fmtClock a = fmtClock b -> a = b.
Proof.
  intros Ha Hb E.
  rewrite (fmtClock_split a Ha), (fmtClock_split b Hb) in E.
  pose proof (Z.mod_pos_bound a 1440 ltac:(lia)) as Hta.
  pose proof (Z.mod_pos_bound b 1440 ltac:(lia)) as Htb.
  apply StringFacts.app_inj in E;
    [| now rewrite !clock_of_day_length by assumption].
  destruct E as [Et Ed].
  apply clock_of_day_inj in Et; [| assumption | assumption].
  apply day_suffix_inj in Ed.
  rewrite (Z.div_mod a 1440), (Z.div_mod b 1440) by lia. now rewrite Et, Ed.
Qed.

(** Two strings of one class of bytes, each followed by one same byte
    outside the class, and equal as a whole, are equal. *)
Lemma class_then_other (p : ascii -> bool) (a b x y : string) (c : ascii) :
  string_forall p a = true -> string_forall p b = true ->
  p c = false ->
  a ++ String c x = b ++ String c y -> a = b /\ x = y.
Proof.
  intros Ha Hb Hc. revert b Hb.
  induction a as [| d a IH]; intros [| e b] Hb E; cbn in *.
  - injection E as ->. now split.
  - injection E as <- _. apply andb_true_iff in Hb. destruct Hb as [Hb _].
    congruence.
  - injection E as -> _. apply andb_true_iff in Ha. destruct Ha as [Ha _].
    congruence.
  - injection E as -> E. apply andb_true_iff in Ha, Hb.
    destruct (IH (proj2 Ha) b (proj2 Hb) E) as [-> ->]. now split.
Qed.

Lemma day_suffix_then (d d' : Z) (x y : string) :
  day_suffix d ++ " -> " ++ x = day_suffix d' ++ " -> " ++ y ->
  d = d' /\ x = y.
Proof.
  unfold day_suffix.
  destruct (Z.eqb_spec d 0) as [-> | Hd], (Z.eqb_spec d' 0) as [-> | Hd'];
    cbn [String.append]; intros E.
  - injection E as ->. now split.
  - discriminate E.
  - discriminate E.
  - injection E as E. rewrite !StringFacts.app_assoc in E.
    cbn [String.append] in E.
    apply (class_then_other is_digit_or_minus) in E;
      [| apply fmt_d_chars | apply fmt_d_chars | reflexivity].
    destruct E as [Ed Ex]. apply fmt_d_inj in Ed. injection Ex as ->.
    now split.
Qed.

(** X3: [fmtClock] writes different strings for different minutes: a clock
    string, with its day suffix, determines the absolute minute; and a range
    written by [fmtRange] determines its two ends. *)
Theorem fmtClock_inj (a b a' b' : Z) :
  Int.min_int <= a <= Int.max_int ->
  Int.min_int <= b <= Int.max_int ->
  Int.min_int <= a' <= Int.max_int ->
  Int.min_int <= b' <= Int.max_int ->
  (fmtClock a = fmtClock a' -> a = a') /\
  (fmtRange a b = fmtRange a' b' -> a = a' /\ b = b').
Proof.
  intros Ha Hb Ha' Hb'. split; [now apply fmtClock_injective |].
  unfold fmtRange. intros E.
  rewrite (fmtClock_split a Ha), (fmtClock_split a' Ha') in E.
  rewrite !StringFacts.app_assoc in E.
  pose proof (Z.mod_pos_bound a 1440 ltac:(lia)) as Hta.
  pose proof (Z.mod_pos_bound a' 1440 ltac:(lia)) as Hta'.
  apply StringFacts.app_inj in E;
    [| now rewrite !clock_of_day_length by assumption].
  destruct E as [Et Es].
  apply clock_of_day_inj in Et; [| assumption | assumption].
  apply day_suffix_then in Es. destruct Es as [Ed Eb].
  apply fmtClock_injective in Eb; [| assumption | assumption].
  split; [| exact Eb].
  rewrite (Z.div_mod a 1440), (Z.div_mod a' 1440) by lia. now rewrite Et, Ed.
Qed.

(** ** Reading a clock string back *)

Lemma is_digit_plain (c : ascii) : is_digit c = true -> plain_byte c = true.
Proof.
  destruct c as [[] [] [] [] [] [] [] []]; intros Hc;
    try discriminate Hc; reflexivity.
Qed.

Lemma is_digit_not_colon (c : ascii) : is_digit c = true -> not_colon c = true.
Proof.
  destruct c as [[] [] [] [] [] [] [] []]; intros Hc;
    try discriminate Hc; reflexivity.
Qed.

Lemma is_digit_or_minus_not_colon (c : ascii) :
  is_digit_or_minus c = true -> not_colon c = true.
Proof.
  destruct c as [[] [] [] [] [] [] [] []]; intros Hc;
    try discriminate Hc; reflexivity.
Qed.

Lemma split_colon_none (s : string) :
  string_forall not_colon s = true -> split_colon s = [s].
Proof.
  induction s as [| c s IH]; [reflexivity |]. cbn [string_forall split_colon].
  intros Hs. apply andb_true_iff in Hs. destruct Hs as [Hc Hs].
  unfold not_colon in Hc. apply negb_true_iff in Hc. now rewrite Hc, (IH Hs).
Qed.

(** A string that starts with a digit is read by [Atoi] as its digits. *)
Lemma Atoi_digit_first (c : ascii) (r : string) :
  is_digit c = true ->
  Atoi (String c r)
  = match digits_value (String c r) 0 with
    | Some v => if Int.in_range v then Some v else None
    | None => None
    end.
Proof.
  destruct c as [[] [] [] [] [] [] [] []]; intros Hc;
    try discriminate Hc; reflexivity.
Qed.

(** X4: outside the day the string of [fmtClock] carries a day suffix and
    [parseHHMMToMin] does not read it back: it is an invalid time. *)
Theorem parse_fmtClock_other_day (min : Z) :
  Int.min_int <= min <= Int.max_int ->
  ~ (0 <= min <= 1439) ->
  parseHHMMToMin (fmtClock min) = Err (ErrInvalidTime (fmtClock min)).
Proof.
  intros Hmin Hday.
  pose proof (Z.mod_pos_bound min 1440 ltac:(lia)) as Ht.
  assert (Hd : min / 1440 <> 0).
  { intros Hd. pose proof (Z.div_mod min 1440 ltac:(lia)). lia. }
  rewrite (fmtClock_split min Hmin).
  destruct (clock_of_day_chars _ Ht)
    as (a1 & a2 & b1 & b2 & E & Ha1 & Ha2 & Hb1 & Hb2 & Hh & _).
  rewrite E. unfold day_suffix.
  replace (min / 1440 =? 0) with false by (symmetry; now apply Z.eqb_neq).
  set (D := fmt_d (min / 1440)).
  set (rest := String b1 (String b2 (" (+" ++ D ++ "d)"))).
  assert (Eshape :
    String a1 (String a2 (String ":" (String b1 (String b2 EmptyString))))
      ++ " (+" ++ D ++ "d)"
    = String a1 (String a2 (String ":" rest))) by reflexivity.
  rewrite Eshape. unfold parseHHMMToMin.
  assert (Etrim : TrimSpace (String a1 (String a2 (String ":" rest)))
                  = String a1 (String a2 (String ":" rest))).
  { replace (String a2 (String ":" rest))
      with (String a2 (String ":" (String b1 (String b2 (" (+" ++ D ++ "d"))))
            ++ String ")" EmptyString).
    - apply TrimSpace_plain; [now apply is_digit_plain | reflexivity].
    - subst rest. cbn [String.append]. do 7 f_equal.
      now rewrite StringFacts.app_assoc. }
  rewrite Etrim.
  assert (Hrest : string_forall not_colon rest = true).
  { subst rest. cbn [string_forall String.append].
    rewrite (is_digit_not_colon b1 Hb1), (is_digit_not_colon b2 Hb2).
    cbn [not_colon Ascii.eqb Bool.eqb negb andb].
    rewrite string_forall_app. apply andb_true_iff. split; [| reflexivity].
    apply (string_forall_impl is_digit_or_minus);
      [exact is_digit_or_minus_not_colon | apply fmt_d_chars]. }
  assert (Esplit : split_colon (String a1 (String a2 (String ":" rest)))
                   = [String a1 (String a2 EmptyString); rest]).
  { cbn [split_colon]. apply is_digit_not_colon in Ha1, Ha2.
    unfold not_colon in Ha1, Ha2. apply negb_true_iff in Ha1, Ha2.
    rewrite Ha1, Ha2. cbn [Ascii.eqb Bool.eqb]. cbn [andb].
    now rewrite (split_colon_none rest Hrest). }
  rewrite Esplit, Hh.
  pose proof (Z.div_pos (min mod 1440) 60 ltac:(lia) ltac:(lia)) as Hh0.
  pose proof (Z.div_lt_upper_bound (min mod 1440) 60 24 ltac:(lia) ltac:(lia)).
  replace ((min mod 1440 / 60 <? 0) || (min mod 1440 / 60 >? 23)) with false
    by (symmetry; apply orb_false_iff; rewrite Z.gtb_ltb; split;
        apply Z.ltb_ge; lia).
  subst rest. rewrite (Atoi_digit_first b1 _ Hb1).
  cbn [digits_value]. rewrite Hb1, Hb2. cbn [String.append digits_value].
  reflexivity.
Qed.

(** ** Durations *)

Lemma fmt_d_digits (n : Z) : 0 <= n -> string_forall is_digit (fmt_d n) = true.
Proof.
  intros Hn. unfold fmt_d, NilZero.string_of_int, NilZero.string_of_uint.
  destruct n as [| p | p]; [reflexivity | | lia].
  cbn [Z.to_int]. destruct (Pos.to_uint p); try apply string_of_uint_digits.
  reflexivity.
Qed.

(** Two numerals followed by the same letter and equal as a whole are
    equal. *)
Lemma digits_then_letter (a b x y : string) (c : ascii) :
  string_forall is_digit a = true -> string_forall is_digit b = true ->
  is_digit c = false ->
  a ++ String c x = b ++ String c y -> a = b /\ x = y.
Proof.
  intros Ha Hb Hc. revert b Hb.
  induction a as [| d a IH]; intros [| e b] Hb E; cbn in *.
  - injection E as ->. now split.
  - injection E as <- _. apply andb_true_iff in Hb. destruct Hb as [Hb _].
    congruence.
  - injection E as -> _. apply andb_true_iff in Ha. destruct Ha as [Ha _].
    congruence.
  - injection E as -> E. apply andb_true_iff in Ha, Hb.
    destruct (IH (proj2 Ha) b (proj2 Hb) E) as [-> ->]. now split.
Qed.

Lemma fmtHM_nonneg (n : Z) :
  0 <= n <= Int.max_int ->
  fmtHM n = fmt_d (n / 60) ++ "h" ++ fmt_02d (n mod 60) ++ "m".
Proof.
  intros Hn. unfold fmtHM.
  replace (n <? 0) with false by (symmetry; apply Z.ltb_ge; lia).
  unfold Int.quot, Int.rem.
  rewrite Z.quot_div_nonneg, Z.rem_mod_nonneg by lia.
  rewrite IntFacts.wrap_small; [reflexivity |].
  unfold Int.min_int, Int.max_int in *.
  pose proof (Z.div_pos n 60 ltac:(lia) ltac:(lia)).
  pose proof (Z.div_le_upper_bound n 60 n ltac:(lia) ltac:(lia)). lia.
Qed.

Lemma fmtHM_abs (n : Z) :
  Int.min_int < n <= Int.max_int -> fmtHM n = fmtHM (Z.abs n).
Proof.
  intros Hn. unfold fmtHM at 1.
  destruct (Z.ltb_spec n 0) as [Hneg | Hpos].
  - unfold Int.neg. rewrite IntFacts.wrap_small
      by (unfold Int.min_int, Int.max_int in *; lia).
    unfold fmtHM. replace (Z.abs n) with (- n) by lia.
    replace (- n <? 0) with false by (symmetry; apply Z.ltb_ge; lia).
    reflexivity.
  - unfold fmtHM. replace (Z.abs n) with n by lia.
    replace (n <? 0) with false by (symmetry; apply Z.ltb_ge; lia).
    reflexivity.
Qed.

(** X5: [fmtHM] drops the sign and nothing else: two numbers of minutes
    (the least integer, which has no opposite, left aside) are written the
    same exactly when they are equal or opposite. *)
Theorem fmtHM_same_iff (a b : Z) :
  Int.min_int < a <= Int.max_int ->
  Int.min_int < b <= Int.max_int ->
  fmtHM a = fmtHM b <-> Z.abs a = Z.abs b.
Proof.
  intros Ha Hb. rewrite (fmtHM_abs a Ha), (fmtHM_abs b Hb).
  split; [| now intros ->].
  assert (Ba : 0 <= Z.abs a <= Int.max_int)
    by (unfold Int.min_int, Int.max_int in *; lia).
  assert (Bb : 0 <= Z.abs b <= Int.max_int)
    by (unfold Int.min_int, Int.max_int in *; lia).
  rewrite (fmtHM_nonneg _ Ba), (fmtHM_nonneg _ Bb).
  set (x := Z.abs a) in *. set (y := Z.abs b) in *. intros E.
  pose proof (Z.div_pos x 60 ltac:(lia) ltac:(lia)).
  pose proof (Z.div_pos y 60 ltac:(lia) ltac:(lia)).
  pose proof (Z.mod_pos_bound x 60 ltac:(lia)).
  pose proof (Z.mod_pos_bound y 60 ltac:(lia)).
  apply digits_then_letter in E;
    [| now apply fmt_d_digits | now apply fmt_d_digits | reflexivity].
  destruct E as [Eh Em].
  apply fmt_d_inj in Eh. apply StringFacts.app_inv_tail in Em.
  apply fmt_02d_inj in Em; [| lia | lia].
  rewrite (Z.div_mod x 60), (Z.div_mod y 60) by lia. now rewrite Eh, Em.
Qed.

(** * Further properties of the calculator *)

(** ** Wrapped arithmetic *)

Lemma wrap_mod (z : Z) : Int.wrap z mod 2 ^ 64 = z mod 2 ^ 64.
Proof.
  unfold Int.wrap. rewrite Zminus_mod_idemp_l. f_equal. lia.
Qed.

Lemma wrap_congr (x y : Z) : x mod 2 ^ 64 = y mod 2 ^ 64 -> Int.wrap x = Int.wrap y.
Proof.
  intros E. unfold Int.wrap.
  rewrite <- (Zplus_mod_idemp_l x), <- (Zplus_mod_idemp_l y), E. reflexivity.
Qed.

Lemma wrap_sub_l (a b : Z) : Int.wrap (Int.wrap a - b) = Int.wrap (a - b).
Proof. apply wrap_congr. now rewrite Zminus_mod, wrap_mod, <- Zminus_mod. Qed.

Lemma wrap_sub_r (a b : Z) : Int.wrap (a - Int.wrap b) = Int.wrap (a - b).
Proof. apply wrap_congr. now rewrite Zminus_mod, wrap_mod, <- Zminus_mod. Qed.

Lemma wrap_add_l (a b : Z) : Int.wrap (Int.wrap a + b) = Int.wrap (a + b).
Proof. apply wrap_congr. now rewrite Zplus_mod, wrap_mod, <- Zplus_mod. Qed.

(** A window that starts [F - x] before a point and ends [x] after it lasts
    [F], whatever wraps around. *)
Lemma window_length (rs F x : Z) :
  Int.min_int <= F <= Int.max_int ->
  Int.sub (Int.add rs x) (Int.sub rs (Int.sub F x)) = F.
Proof.
  intros HF. unfold Int.sub, Int.add.
  rewrite wrap_sub_l, wrap_sub_r.
  replace (rs + x - (rs - Int.wrap (F - x))) with (Int.wrap (F - x) + x) by lia.
  rewrite wrap_add_l. replace (F - x + x) with F by lia.
  now apply IntFacts.wrap_small.
Qed.

(** ** Success, and the shape of the scenarios *)

Lemma parse_clock_of_day (t : Z) :
  0 <= t <= 1439 -> parseHHMMToMin (fmtClock t) = Ok t.
Proof.
  intros Ht.
  assert (Hall : forallb (fun z => result_eqb (parseHHMMToMin (fmtClock z)) z)
                   (interval 0 1440) = true) by (vm_compute; reflexivity).
  apply result_eqb_true. exact (forallb_interval _ _ _ Hall t ltac:(lia)).
Qed.

Section Success.

Context `{Platform}.

Variables (startStr normalStartStr normalEndStr : string).
Variables (lengthH combineH fullH minRestH maxOvertimeH : float64).

(** X6: [compute] succeeds exactly when the three clock strings parse, the
    release length is not [<= 0], the normal day ends after it starts, the
    minimum rest is a positive number of minutes and the overtime cap is not
    a negative one. The combine length and the full-day override never make
    it fail. *)
Theorem compute_succeeds_iff :
  (exists r, compute startStr lengthH combineH fullH normalStartStr
               normalEndStr minRestH maxOvertimeH = Ok r) <->
  (exists rs ns ne,
     parseHHMMToMin startStr = Ok rs /\
     Fle lengthH (Fconst 0) = false /\
     parseHHMMToMin normalStartStr = Ok ns /\
     parseHHMMToMin normalEndStr = Ok ne /\
     ns < ne /\
     0 < hoursToMin minRestH /\
     0 <= hoursToMin maxOvertimeH).
Proof.
  split.
  - intros [r Hc]. compute_inv Hc rs ns ne.
    all: pose proof (parseHHMMToMin_range _ _ Hns) as Bns.
    all: pose proof (parseHHMMToMin_range _ _ Hne) as Bne.
    all: assert (Hn : Int.sub ne ns = ne - ns) by (unwrap; lia).
    all: exists rs, ns, ne; repeat split; try assumption; lia.
  - intros (rs & ns & ne & Hrs & Hlen & Hns & Hne & Hday & Hrest & Hcap).
    pose proof (parseHHMMToMin_range _ _ Hns) as Bns.
    pose proof (parseHHMMToMin_range _ _ Hne) as Bne.
    assert (Hn : Int.sub ne ns = ne - ns) by (unwrap; lia).
    unfold compute. rewrite Hrs, Hlen, Hns, Hne, Hn.
    replace (ne - ns <=? 0) with false by (symmetry; apply Z.leb_gt; lia).
    replace (hoursToMin minRestH <=? 0) with false
      by (symmetry; apply Z.leb_gt; lia).
    replace (hoursToMin maxOvertimeH <? 0) with false
      by (symmetry; apply Z.ltb_ge; lia).
    destruct (hoursToMin lengthH >? hoursToMin maxOvertimeH);
      eexists; reflexivity.
Qed.

(** X7: in every scenario of a result the work hours last exactly the full
    day used (in the integers of the program), and the total work runs from
    the start of the work hours to the end of the release. *)
Theorem work_window_full_day (r : CalcResult) :
  compute startStr lengthH combineH fullH normalStartStr normalEndStr
    minRestH maxOvertimeH = Ok r ->
  exists rs ns ne,
    parseHHMMToMin startStr = Ok rs /\
    parseHHMMToMin normalStartStr = Ok ns /\
    parseHHMMToMin normalEndStr = Ok ne /\
    Forall (fun s => exists workStart workEnd,
                WorkHours s = fmtRange workStart workEnd /\
                TotalWork s
                = fmtRange workStart (Int.add rs (hoursToMin lengthH)) /\
                Int.sub workEnd workStart = fullDayUsed fullH (Int.sub ne ns))
      (Scenarios r).
Proof.
  intros Hc.
  assert (HF : forall ne ns,
             Int.min_int <= fullDayUsed fullH (Int.sub ne ns) <= Int.max_int).
  { intros ne ns. unfold fullDayUsed. destruct (Flt (Fconst 0) fullH).
    - apply hoursToMin_range.
    - apply IntFacts.wrap_range. }
  compute_inv Hc rs ns ne.
  all: exists rs, ns, ne; do 3 (split; [assumption |]).
  all: specialize (HF ne ns); unfold fullDayUsed in *.
  all: cbn [Scenarios app].
  all: apply Forall_cons;
    [ do 2 eexists; do 2 (split; [reflexivity |]);
      apply window_length; exact HF |].
  all: apply Forall_cons;
    [ do 2 eexists; do 2 (split; [reflexivity |]);
      apply IntFacts.sub_sub_cancel; exact HF |].
  all: destruct (Fle (Fconst 0) combineH); [| apply Forall_nil].
  all: match goal with
       | |- context [if ?c >? ?d then _ else _] => destruct (c >? d)
       end.
  all: apply Forall_cons; [| apply Forall_nil].
  all: do 2 eexists; do 2 (split; [reflexivity |]).
  all: apply window_length; exact HF.
Qed.

End Success.

Section Schedules.

Context `{Platform}.

Variables (startStr normalStartStr normalEndStr : string).
Variables (lengthH combineH fullH minRestH maxOvertimeH : float64).

(** X8: the overtime cap plays no part in the first scenario. With a release
    length and a full day that are not negative, it includes the lesser of
    the release length and the full day, and its overtime is what of the
    release does not fit in the full day, which the cap does not bound. *)
Theorem scenarioA_ignores_cap (r : CalcResult) :
  compute startStr lengthH combineH fullH normalStartStr normalEndStr
    minRestH maxOvertimeH = Ok r ->
  exists rs ns ne sA,
    parseHHMMToMin startStr = Ok rs /\
    parseHHMMToMin normalStartStr = Ok ns /\
    parseHHMMToMin normalEndStr = Ok ne /\
    nth_error (Scenarios r) 0 = Some sA /\
    let L := hoursToMin lengthH in
    let F := fullDayUsed fullH (ne - ns) in
    0 <= L -> 0 <= F ->
    ReleaseIncluded sA = fmtHM (Z.min L F) /\
    Overtime sA = fmtHM (Z.max (L - F) 0) /\
    WorkHours sA
    = fmtRange (Int.sub rs (F - Z.min L F)) (Int.add rs (Z.min L F)).
Proof.
  intros Hc.
  pose proof (hoursToMin_range lengthH) as BL.
  pose proof (hoursToMin_range maxOvertimeH) as BM.
  pose proof (hoursToMin_range fullH) as BF.
  compute_inv Hc rs ns ne.
  all: pose proof (parseHHMMToMin_range _ _ Hns) as Bns.
  all: pose proof (parseHHMMToMin_range _ _ Hne) as Bne.
  all: assert (Hn : Int.sub ne ns = ne - ns) by (unwrap; lia).
  all: rewrite Hn.
  all: exists rs, ns, ne; eexists; do 3 (split; [assumption |]).
  all: split; [reflexivity |].
  all: cbv zeta; unfold fullDayUsed.
  all: set (L := hoursToMin lengthH) in *.
  all: set (M := hoursToMin maxOvertimeH) in *.
  all: set (F := if Flt (Fconst 0) fullH then hoursToMin fullH else ne - ns) in *.
  all: intros HL HF.
  all: assert (BFd : F <= Int.max_int)
         by (subst F; destruct (Flt (Fconst 0) fullH);
             unfold Int.max_int in *; lia).
  all: cbn [ReleaseIncluded Overtime WorkHours].
  all: rewrite !minInt_min, !maxInt_max.
  all: assert (Hreq : Int.sub L M = L - M) by (unwrap; lia).
  all: rewrite Hreq.
  all: assert (Hinc : Z.min F (Z.max (Z.max 0 (L - M)) (Z.min L F)) = Z.min L F)
         by lia.
  all: rewrite Hinc.
  all: assert (Hot : Int.sub L (Z.min L F) = L - Z.min L F) by (unwrap; lia).
  all: assert (Hpre : Int.sub F (Z.min L F) = F - Z.min L F) by (unwrap; lia).
  all: rewrite Hot, Hpre.
  all: repeat split; f_equal; lia.
Qed.

(** X9: a successful run with a combine length that is not negative has
    three scenarios. When moreover the minutes of the release length and of
    the full day used are not negative and the minutes of the combine length
    are at least the lesser of the two, the third scenario has the work
    hours, the total work, the included time and the overtime of the
    first. *)
Theorem scenarioC_full_combine (r : CalcResult) :
  compute startStr lengthH combineH fullH normalStartStr normalEndStr
    minRestH maxOvertimeH = Ok r ->
  Fle (Fconst 0) combineH = true ->
  exists ns ne sA sB sC,
    parseHHMMToMin normalStartStr = Ok ns /\
    parseHHMMToMin normalEndStr = Ok ne /\
    Scenarios r = [sA; sB; sC] /\
    let L := hoursToMin lengthH in
    let F := fullDayUsed fullH (ne - ns) in
    0 <= L -> 0 <= F -> Z.min L F <= hoursToMin combineH ->
    WorkHours sC = WorkHours sA /\
    TotalWork sC = TotalWork sA /\
    ReleaseIncluded sC = ReleaseIncluded sA /\
    Overtime sC = Overtime sA.
Proof.
  intros Hc Hcomb.
  pose proof (hoursToMin_range lengthH) as BL.
  pose proof (hoursToMin_range maxOvertimeH) as BM.
  pose proof (hoursToMin_range fullH) as BF.
  pose proof (hoursToMin_range combineH) as BX.
  compute_inv Hc rs ns ne.
  all: pose proof (parseHHMMToMin_range _ _ Hns) as Bns.
  all: pose proof (parseHHMMToMin_range _ _ Hne) as Bne.
  all: assert (Hn : Int.sub ne ns = ne - ns) by (unwrap; lia).
  all: rewrite Hn, Hcomb.
  all: exists ns, ne.
  all: unfold fullDayUsed.
  all: set (L := hoursToMin lengthH) in *.
  all: set (M := hoursToMin maxOvertimeH) in *.
  all: set (X := hoursToMin combineH) in *.
  all: set (F := if Flt (Fconst 0) fullH then hoursToMin fullH else ne - ns) in *.
  all: assert (BFd : Int.min_int <= F <= Int.max_int)
         by (subst F; destruct (Flt (Fconst 0) fullH);
             unfold Int.min_int, Int.max_int in *; lia).
  all: cbn [Scenarios app].
  all: destruct (Int.sub L (minInt (minInt X L) F) >? M) eqn:Ere.
  all: do 3 eexists; do 2 (split; [assumption |]); (split; [reflexivity |]).
  all: cbv zeta; intros HL HF HX.
  all: cbn [WorkHours TotalWork ReleaseIncluded Overtime].
  all: rewrite !minInt_min, !maxInt_max in *.
  all: assert (Hreq : Int.sub L M = L - M) by (unwrap; lia).
  all: rewrite Hreq in *.
  all: assert (Hinc : Z.min F (Z.max (Z.max 0 (L - M)) (Z.min L F)) = Z.min L F)
         by lia.
  all: rewrite Hinc.
  all: assert (Hx : Z.min (Z.min X L) F = Z.min L F) by lia.
  all: rewrite Hx in *.
  all: assert (Hot : Int.sub L (Z.min L F) = L - Z.min L F) by (unwrap; lia).
  all: rewrite Hot in *.
  all: rewrite ?Z.gtb_ltb in Ere;
       first [apply Z.ltb_lt in Ere | apply Z.ltb_ge in Ere].
  all: try (assert (Hx' : Z.min (Z.max (L - M) 0) F = Z.min L F) by lia;
            rewrite Hx'; rewrite Hot).
  all: repeat split; f_equal; lia.
Qed.

(** X10: the clock strings a result echoes are accepted in the place of the
    inputs they come from, and [compute] then gives the same result. *)
Theorem compute_on_echo (r : CalcResult) :
  compute startStr lengthH combineH fullH normalStartStr normalEndStr
    minRestH maxOvertimeH = Ok r ->
  parseHHMMToMin (ReleaseStart r) = parseHHMMToMin startStr /\
  parseHHMMToMin (NormalStart r) = parseHHMMToMin normalStartStr /\
  parseHHMMToMin (NormalEnd r) = parseHHMMToMin normalEndStr /\
  compute (ReleaseStart r) lengthH combineH fullH (NormalStart r) (NormalEnd r)
    minRestH maxOvertimeH = Ok r.
Proof.
  intros Hc.
  assert (Hecho : exists rs ns ne,
             parseHHMMToMin startStr = Ok rs /\
             parseHHMMToMin normalStartStr = Ok ns /\
             parseHHMMToMin normalEndStr = Ok ne /\
             ReleaseStart r = fmtClock rs /\
             NormalStart r = fmtClock ns /\
             NormalEnd r = fmtClock ne).
  { pose proof Hc as Hc'. compute_inv Hc' rs ns ne.
    all: exists rs, ns, ne; repeat split; assumption. }
  destruct Hecho as (rs & ns & ne & Hrs & Hns & Hne & -> & -> & ->).
  pose proof (parseHHMMToMin_range _ _ Hrs) as Brs.
  pose proof (parseHHMMToMin_range _ _ Hns) as Bns.
  pose proof (parseHHMMToMin_range _ _ Hne) as Bne.
  pose proof (parse_clock_of_day rs Brs) as Prs.
  pose proof (parse_clock_of_day ns Bns) as Pns.
  pose proof (parse_clock_of_day ne Bne) as Pne.
  rewrite Hrs, Hns, Hne. do 3 (split; [assumption |]).
  rewrite <- Hc. unfold compute. rewrite Prs, Pns, Pne, Hrs, Hns, Hne.
  reflexivity.
Qed.

End Schedules.

(** ** The next day *)

(** X11: while nothing overflows, the next day starts on a calendar day
    after the one of the release end. When the rest is over by the normal
    start of the following day, it starts at that normal start; otherwise it
    starts when the rest is over, whatever the time of the day then is. *)
Theorem next_day_by_rest (releaseEnd ns R : Z) :
  Int.min_int <= releaseEnd ->
  0 <= ns < 1440 ->
  0 < R ->
  releaseEnd + Z.max R 2880 <= Int.max_int ->
  let nextStart := calcNextDayStartAbs releaseEnd ns R in
  let gap := 1440 - releaseEnd mod 1440 + ns in
  releaseEnd / 1440 < nextStart / 1440 /\
  (R <= gap ->
   nextStart = (releaseEnd / 1440 + 1) * 1440 + ns /\
   nextStart / 1440 = releaseEnd / 1440 + 1 /\
   nextStart mod 1440 = ns) /\
  (gap < R -> nextStart = releaseEnd + R).
Proof.
  intros Hlo Hns HR Hroom. cbv zeta. unfold Int.min_int, Int.max_int in *.
  pose proof (Z.div_mod releaseEnd 1440 ltac:(lia)) as Hdm.
  pose proof (Z.mod_pos_bound releaseEnd 1440 ltac:(lia)) as Hm.
  assert (Hnext : calcNextDayStartAbs releaseEnd ns R
                  = Z.max ((releaseEnd / 1440 + 1) * 1440 + ns) (releaseEnd + R)).
  { unfold calcNextDayStartAbs.
    rewrite floorDiv_1440 by (unfold Int.min_int, Int.max_int; lia).
    rewrite maxInt_max. unwrap. reflexivity. }
  rewrite Hnext.
  set (d := releaseEnd / 1440) in *. set (t := releaseEnd mod 1440) in *.
  assert (Hbase : ((d + 1) * 1440 + ns) / 1440 = d + 1).
  { symmetry. apply Z.div_unique with (r := ns); lia. }
  split; [| split].
  - apply Z.lt_le_trans with (m := d + 1); [lia |].
    rewrite <- Hbase. apply Z.div_le_mono; lia.
  - intros Hgap. rewrite Z.max_l by lia. repeat split; [exact Hbase |].
    symmetry. apply Z.mod_unique with (q := d + 1); lia.
  - intros Hgap. rewrite Z.max_r by lia. reflexivity.
Qed.

(** * Properties of the helpers of the web pages *)

(** ** Trimming twice *)

Lemma trim_left_fixed (s : string) : ws_head s = false -> trim_left s = s.
Proof.
  destruct s as [| a [| b [| c r3]]]; cbn [ws_head trim_left];
    try reflexivity.
  - destruct (ascii_space a); [discriminate | reflexivity].
  - destruct (ascii_space a); [discriminate |].
    destruct (space2 a b); [discriminate | reflexivity].
  - destruct (ascii_space a); [discriminate |].
    destruct (space2 a b); [discriminate |].
    destruct (space3 a b c); [discriminate | reflexivity].
Qed.

Lemma trim_left_rev_fixed (s : string) :
  ws_head_rev s = false -> trim_left_rev s = s.
Proof.
  destruct s as [| a [| b [| c r3]]]; cbn [ws_head_rev trim_left_rev];
    try reflexivity.
  - destruct (ascii_space a); [discriminate | reflexivity].
  - destruct (ascii_space a); [discriminate |].
    destruct (space2 b a); [discriminate | reflexivity].
  - destruct (ascii_space a); [discriminate |].
    destruct (space2 b a); [discriminate |].
    destruct (space3 c b a); [discriminate | reflexivity].
Qed.

Lemma trim_left_head (s : string) : ws_head (trim_left s) = false.
Proof.
  assert (Hgen : forall n s, (String.length s <= n)%nat ->
                             ws_head (trim_left s) = false).
  { clear s. induction n as [| n IH]; intros s Hlen.
    - destruct s; [reflexivity | cbn in Hlen; lia].
    - destruct s as [| a r]; [reflexivity |]. cbn [String.length] in Hlen.
      cbn [trim_left]. destruct (ascii_space a) eqn:Ea.
      + apply IH. lia.
      + destruct r as [| b r2].
        * cbn [ws_head]. now rewrite Ea.
        * cbn [String.length] in Hlen. destruct (space2 a b) eqn:E2.
          -- apply IH. lia.
          -- destruct r2 as [| c r3].
             ++ cbn [ws_head]. now rewrite Ea, E2.
             ++ cbn [String.length] in Hlen. destruct (space3 a b c) eqn:E3.
                ** apply IH. lia.
                ** cbn [ws_head]. now rewrite Ea, E2, E3. }
  apply (Hgen (String.length s)). lia.
Qed.

Lemma trim_left_rev_head (s : string) : ws_head_rev (trim_left_rev s) = false.
Proof.
  assert (Hgen : forall n s, (String.length s <= n)%nat ->
                             ws_head_rev (trim_left_rev s) = false).
  { clear s. induction n as [| n IH]; intros s Hlen.
    - destruct s; [reflexivity | cbn in Hlen; lia].
    - destruct s as [| a r]; [reflexivity |]. cbn [String.length] in Hlen.
      cbn [trim_left_rev]. destruct (ascii_space a) eqn:Ea.
      + apply IH. lia.
      + destruct r as [| b r2].
        * cbn [ws_head_rev]. now rewrite Ea.
        * cbn [String.length] in Hlen. destruct (space2 b a) eqn:E2.
          -- apply IH. lia.
          -- destruct r2 as [| c r3].
             ++ cbn [ws_head_rev]. now rewrite Ea, E2.
             ++ cbn [String.length] in Hlen. destruct (space3 c b a) eqn:E3.
                ** apply IH. lia.
                ** cbn [ws_head_rev]. now rewrite Ea, E2, E3. }
  apply (Hgen (String.length s)). lia.
Qed.

(** What [trim_left_rev] returns is the end of its argument. *)
Lemma trim_left_rev_suffix (s : string) :
  exists w, s = w ++ trim_left_rev s.
Proof.
  assert (Hgen : forall n s, (String.length s <= n)%nat ->
                             exists w, s = w ++ trim_left_rev s).
  { clear s. induction n as [| n IH]; intros s Hlen.
    - destruct s; [now exists EmptyString | cbn in Hlen; lia].
    - destruct s as [| a r]; [now exists EmptyString |].
      cbn [String.length] in Hlen. cbn [trim_left_rev].
      destruct (ascii_space a).
      + destruct (IH r ltac:(lia)) as [w Hw].
        exists (String a w). cbn. now rewrite <- Hw.
      + destruct r as [| b r2]; [now exists EmptyString |].
        cbn [String.length] in Hlen. destruct (space2 b a).
        * destruct (IH r2 ltac:(lia)) as [w Hw].
          exists (String a (String b w)). cbn. now rewrite <- Hw.
        * destruct r2 as [| c r3]; [now exists EmptyString |].
          cbn [String.length] in Hlen. destruct (space3 c b a).
          -- destruct (IH r3 ltac:(lia)) as [w Hw].
             exists (String a (String b (String c w))). cbn. now rewrite <- Hw.
          -- now exists EmptyString. }
  apply (Hgen (String.length s)). lia.
Qed.

(** A string that begins with white space still does when it goes on. *)
Lemma ws_head_app (u v : string) : ws_head u = true -> ws_head (u ++ v) = true.
Proof.
  destruct u as [| a [| b [| c r3]]]; cbn [ws_head String.append];
    intros Hu; try discriminate.
  - rewrite orb_false_r in Hu. now rewrite Hu.
  - rewrite orb_false_r in Hu. apply orb_true_iff in Hu.
    destruct Hu as [-> | ->]; [reflexivity |]. now rewrite orb_true_r.
  - exact Hu.
Qed.

Lemma rev_string_append (a b : string) :
  rev_string (a ++ b) EmptyString
  = rev_string b EmptyString ++ rev_string a EmptyString.
Proof.
  induction a as [| c a IH]; cbn [String.append rev_string].
  - now rewrite StringFacts.app_nil_r.
  - rewrite (StringFacts.rev_string_app (a ++ b)), IH.
    rewrite (StringFacts.rev_string_app a (String c EmptyString)).
    now rewrite StringFacts.app_assoc.
Qed.

(** What [TrimSpace] returns neither begins nor ends with white space. *)
Lemma TrimSpace_ends (s : string) :
  ws_head (TrimSpace s) = false /\
  ws_head_rev (rev_string (TrimSpace s) EmptyString) = false.
Proof.
  unfold TrimSpace. set (t := trim_left s).
  set (y := trim_left_rev (rev_string t EmptyString)).
  rewrite StringFacts.rev_string_involutive. split; [| apply trim_left_rev_head].
  destruct (trim_left_rev_suffix (rev_string t EmptyString)) as [w Hw].
  fold y in Hw. apply (f_equal (fun x => rev_string x EmptyString)) in Hw.
  rewrite StringFacts.rev_string_involutive, rev_string_append in Hw.
  destruct (ws_head (rev_string y EmptyString)) eqn:E; [| reflexivity].
  apply (ws_head_app _ (rev_string w EmptyString)) in E.
  rewrite <- Hw in E. subst t. now rewrite trim_left_head in E.
Qed.

(** [TrimSpace] does nothing to what it has returned. *)
Lemma TrimSpace_idempotent (s : string) :
  TrimSpace (TrimSpace s) = TrimSpace s.
Proof.
  destruct (TrimSpace_ends s) as [Hh Hr].
  unfold TrimSpace at 1. rewrite (trim_left_fixed _ Hh).
  rewrite (trim_left_rev_fixed _ Hr).
  apply StringFacts.rev_string_involutive.
Qed.

(** ** Defaults *)

(** X12: [orDefault] returns the default for a blank value and the trimmed
    value otherwise. So trimming the value first, as the page handler does
    for four of its fields, changes nothing; the result is not empty when
    the default is not; and with a default that is itself trimmed the result
    is trimmed, and [orDefault] applied to it returns it. *)
Theorem orDefault_trimmed (val def : string) :
  orDefault (TrimSpace val) def = orDefault val def /\
  (def <> EmptyString -> orDefault val def <> EmptyString) /\
  (TrimSpace def = def ->
   TrimSpace (orDefault val def) = orDefault val def /\
   orDefault (orDefault val def) def = orDefault val def).
Proof.
  unfold orDefault. rewrite TrimSpace_idempotent.
  split; [reflexivity |].
  destruct (String.eqb_spec (TrimSpace val) EmptyString) as [Eb | Eb].
  - split; [trivial |]. intros Hd. rewrite Hd. split; [reflexivity |].
    now destruct (String.eqb def EmptyString).
  - split; [intros _; exact Eb |]. intros _.
    rewrite TrimSpace_idempotent. split; [reflexivity |].
    destruct (String.eqb_spec (TrimSpace val) EmptyString); [contradiction |].
    reflexivity.
Qed.

(** ** White space around a clock string *)

(** X13: [parseHHMMToMin] reads a clock string as it reads the string with
    the white space around it removed: they give the same minute, or both
    fail. *)
Theorem parseHHMMToMin_trimmed (s : string) (v : Z) :
  parseHHMMToMin (TrimSpace s) = Ok v <-> parseHHMMToMin s = Ok v.
Proof.
  unfold parseHHMMToMin. rewrite TrimSpace_idempotent.
  destruct (split_colon (TrimSpace s)) as [| p0 [| p1 [| ? ?]]];
    try (split; discriminate).
  destruct (Atoi p0) as [h |]; [| split; discriminate].
  destruct ((h <? 0) || (h >? 23)); [split; discriminate |].
  destruct (Atoi p1) as [m |]; [| split; discriminate].
  destruct ((m <? 0) || (m >? 59)); [split; discriminate |].
  reflexivity.
Qed.

(** ** The description of a result *)

Section Description.

Context `{Platform}.

(** X14: a result of [compute] has at least two scenarios, so its
    description is never the one without scenario: it is the sentence built
    from the release and from the work hours, the included time, the
    overtime and the next day of the first scenario. *)
Theorem buildShareDescription_of_result
    (startStr normalStartStr normalEndStr : string)
    (lengthH combineH fullH minRestH maxOvertimeH : float64) (r : CalcResult) :
  compute startStr lengthH combineH fullH normalStartStr normalEndStr
    minRestH maxOvertimeH = Ok r ->
  exists sA sB rest,
    Scenarios r = sA :: sB :: rest /\
    buildShareDescription r
    = "Release " ++ ReleaseStart r ++ arrow ++ ReleaseEnd r
      ++ " (" ++ ReleaseLen r ++ "). Work " ++ WorkHours sA
      ++ ". Included " ++ ReleaseIncluded sA ++ ", overtime " ++ Overtime sA
      ++ ". Next day " ++ NextDayHours sA ++ ".".
Proof.
  intros Hc. compute_inv Hc rs ns ne.
  all: do 3 eexists; split; [reflexivity | reflexivity].
Qed.

End Description.

(** ** Escaping *)

Lemma escape_byte_safe (c : ascii) :
  string_forall query_safe (Url.escape_byte c) = true.
Proof. destruct c as [[] [] [] [] [] [] [] []]; vm_compute; reflexivity. Qed.

Lemma escape_byte_unescape (c : ascii) (t u : string) :
  Url.QueryUnescape t = Some u ->
  Url.QueryUnescape (Url.escape_byte c ++ t) = Some (String c u).
Proof.
  intros Hu.
  destruct c as [[] [] [] [] [] [] [] []];
    cbn; rewrite Hu; reflexivity.
Qed.

Lemma QueryEscape_safe (s : string) :
  string_forall query_safe (Url.QueryEscape s) = true.
Proof.
  induction s as [| c s IH]; [reflexivity |]. cbn [Url.QueryEscape].
  now rewrite string_forall_app, escape_byte_safe, IH.
Qed.

Lemma QueryUnescape_escape (s : string) :
  Url.QueryUnescape (Url.QueryEscape s) = Some s.
Proof.
  induction s as [| c s IH]; [reflexivity |]. cbn [Url.QueryEscape].
  now apply escape_byte_unescape.
Qed.

(** ** Reading an encoded query *)

Lemma query_safe_neq (c : ascii) :
  query_safe c = true ->
  Ascii.eqb c "&" = false /\ Ascii.eqb c "=" = false /\ Ascii.eqb c ";" = false.
Proof.
  unfold query_safe. intros Hc.
  apply andb_true_iff in Hc. destruct Hc as [Hc H3].
  apply andb_true_iff in Hc. destruct Hc as [H1 H2].
  now rewrite negb_true_iff in H1, H2, H3.
Qed.

Lemma cut_equals (a b : string) :
  string_forall query_safe a = true ->
  Url.cut "=" (a ++ String "=" b) = (a, b, true).
Proof.
  induction a as [| c a IH]; cbn [string_forall String.append Url.cut].
  - reflexivity.
  - intros Ha. apply andb_true_iff in Ha. destruct Ha as [Hc Ha].
    destruct (query_safe_neq c Hc) as (_ & -> & _). now rewrite (IH Ha).
Qed.

Lemma encode_pair_chars (kv : string * string) :
  string_forall (fun c => negb (Ascii.eqb c "&") && negb (Ascii.eqb c ";"))
    (encode_pair kv) = true.
Proof.
  unfold encode_pair. rewrite !string_forall_app.
  assert (Himp : forall s, string_forall query_safe s = true ->
            string_forall (fun c => negb (Ascii.eqb c "&")
                                    && negb (Ascii.eqb c ";")) s = true).
  { intros s. apply string_forall_impl. intros c Hc.
    destruct (query_safe_neq c Hc) as (-> & _ & ->). reflexivity. }
  rewrite (Himp (Url.QueryEscape (fst kv))), (Himp (Url.QueryEscape (snd kv)))
    by apply QueryEscape_safe.
  reflexivity.
Qed.

Lemma pieces_one (a : string) :
  string_forall (fun c => negb (Ascii.eqb c "&") && negb (Ascii.eqb c ";")) a
  = true ->
  Url.pieces "&" a = [a] /\ Url.contains ";" a = false.
Proof.
  induction a as [| c a IH]; cbn [string_forall Url.pieces Url.contains].
  - now split.
  - intros Ha. apply andb_true_iff in Ha. destruct Ha as [Hc Ha].
    apply andb_true_iff in Hc. destruct Hc as [H1 H2].
    rewrite negb_true_iff in H1, H2. destruct (IH Ha) as [-> ->].
    now rewrite H1, H2.
Qed.

Lemma pieces_more (a b : string) :
  string_forall (fun c => negb (Ascii.eqb c "&") && negb (Ascii.eqb c ";")) a
  = true ->
  Url.pieces "&" (a ++ String "&" b) = a :: Url.pieces "&" b.
Proof.
  induction a as [| c a IH]; cbn [string_forall String.append Url.pieces].
  - reflexivity.
  - intros Ha. apply andb_true_iff in Ha. destruct Ha as [Hc Ha].
    apply andb_true_iff in Hc. destruct Hc as [H1 _].
    rewrite negb_true_iff in H1. now rewrite H1, (IH Ha).
Qed.

Lemma parse_piece_encoded (m : Url.Values) (kv : string * string) :
  Url.parse_piece m (encode_pair kv) = Url.Add (fst kv) (snd kv) m.
Proof.
  unfold Url.parse_piece.
  destruct (pieces_one _ (encode_pair_chars kv)) as [_ ->].
  unfold encode_pair.
  replace (String.eqb _ EmptyString) with false.
  - change ("=" ++ Url.QueryEscape (snd kv))
      with (String "="%char (Url.QueryEscape (snd kv))).
    rewrite cut_equals by apply QueryEscape_safe.
    now rewrite !QueryUnescape_escape.
  - symmetry. apply String.eqb_neq. intros E.
    apply (f_equal String.length) in E.
    rewrite !StringFacts.length_app in E. cbn in E. lia.
Qed.

(** Reading what was encoded adds the pairs in their order. *)
Lemma ParseQuery_join (kvs : list (string * string)) (m : Url.Values) :
  fold_left Url.parse_piece
    (Url.pieces "&" (Url.join "&" (map encode_pair kvs))) m
  = fold_left (fun m kv => Url.Add (fst kv) (snd kv) m) kvs m.
Proof.
  revert m. induction kvs as [| kv rest IH]; intros m.
  - reflexivity.
  - destruct rest as [| kv' rest].
    + cbn [map Url.join]. destruct (pieces_one _ (encode_pair_chars kv)) as [-> _].
      cbn [fold_left]. now rewrite parse_piece_encoded.
    + change (Url.join "&" (map encode_pair (kv :: kv' :: rest)))
        with (encode_pair kv
              ++ String "&"%char (Url.join "&" (map encode_pair (kv' :: rest)))).
      rewrite pieces_more by apply encode_pair_chars.
      cbn [fold_left]. rewrite parse_piece_encoded. apply IH.
Qed.

(** ** The link and the page *)

Lemma buildCalcURL_pairs
    (start length combine normalStart normalEnd minRest maxOvertime : string) :
  buildCalcURL start length combine normalStart normalEnd minRest maxOvertime
  = "/?" ++ Url.join "&"
              (map encode_pair
                 (link_pairs start length combine normalStart normalEnd
                    minRest maxOvertime)).
Proof.
  unfold buildCalcURL, link_pairs.
  destruct (nonempty combine),
    (nonempty normalStart && negb (String.eqb normalStart webDefaultNormalStart)),
    (nonempty normalEnd && negb (String.eqb normalEnd webDefaultNormalEnd)),
    (nonempty minRest && negb (String.eqb minRest webDefaultMinRest)),
    (nonempty maxOvertime && negb (String.eqb maxOvertime webDefaultMaxOvertime));
    reflexivity.
Qed.

Lemma link_values
    (start length combine normalStart normalEnd minRest maxOvertime : string) :
  let m := fold_left (fun m kv => Url.Add (fst kv) (snd kv) m)
             (link_pairs start length combine normalStart normalEnd minRest
                maxOvertime) [] in
  Url.Get "start" m = start /\
  Url.Get "length" m = length /\
  Url.Get "combine" m = (if nonempty combine then combine else EmptyString) /\
  Url.Get "normal_start" m
  = (if nonempty normalStart && negb (String.eqb normalStart webDefaultNormalStart)
     then normalStart else EmptyString) /\
  Url.Get "normal_end" m
  = (if nonempty normalEnd && negb (String.eqb normalEnd webDefaultNormalEnd)
     then normalEnd else EmptyString) /\
  Url.Get "min_rest" m
  = (if nonempty minRest && negb (String.eqb minRest webDefaultMinRest)
     then minRest else EmptyString) /\
  Url.Get "max_overtime" m
  = (if nonempty maxOvertime && negb (String.eqb maxOvertime webDefaultMaxOvertime)
     then maxOvertime else EmptyString).
Proof.
  unfold link_pairs.
  destruct (nonempty combine),
    (nonempty normalStart && negb (String.eqb normalStart webDefaultNormalStart)),
    (nonempty normalEnd && negb (String.eqb normalEnd webDefaultNormalEnd)),
    (nonempty minRest && negb (String.eqb minRest webDefaultMinRest)),
    (nonempty maxOvertime && negb (String.eqb maxOvertime webDefaultMaxOvertime));
    cbv zeta; repeat split; reflexivity.
Qed.

Lemma orDefault_nonempty (val def : string) :
  def <> EmptyString -> String.eqb (orDefault val def) EmptyString = false.
Proof.
  intros Hd. apply String.eqb_neq. unfold orDefault.
  destruct (String.eqb_spec (TrimSpace val) EmptyString); assumption.
Qed.

(** A field left out of the link, because it is empty or the default, is
    read by the page as the field itself would be. *)
Lemma omitted_field (x def : string) :
  TrimSpace def = def ->
  orDefault (TrimSpace (if nonempty x && negb (String.eqb x def)
                        then x else EmptyString)) def
  = orDefault x def.
Proof.
  intros Hd. unfold nonempty.
  destruct (String.eqb_spec x EmptyString) as [-> | Hx]; [reflexivity |].
  destruct (String.eqb_spec x def) as [-> | Hxd]; cbn [negb andb].
  - unfold orDefault. rewrite Hd. change (TrimSpace EmptyString) with EmptyString.
    cbn. now destruct (String.eqb def EmptyString).
  - unfold orDefault. now rewrite TrimSpace_idempotent.
Qed.

(** X15: the link [buildCalcURL] returns is ["/?"] and a query; it holds
    the start and the length, and each other field unless the field is empty
    or the default of the page. The page data built from that query has
    every field as the page would read the field itself: nothing is lost by
    what the link leaves out or by the escaping. *)
Theorem link_read_back
    (start length combine normalStart normalEnd minRest maxOvertime : string) :
  exists query,
    buildCalcURL start length combine normalStart normalEnd minRest maxOvertime
    = "/?" ++ query /\
    query
    = Url.join "&"
        (map encode_pair
           (link_pairs start length combine normalStart normalEnd minRest
              maxOvertime)) /\
    Page.ofQuery (Url.ParseQuery query)
    = {| Page.Start := orDefault start webDefaultStart;
         Page.Length := orDefault length webDefaultLength;
         Page.Combine := TrimSpace combine;
         Page.NormalStart := orDefault normalStart webDefaultNormalStart;
         Page.NormalEnd := orDefault normalEnd webDefaultNormalEnd;
         Page.MinRest := orDefault minRest webDefaultMinRest;
         Page.MaxOvertime := orDefault maxOvertime webDefaultMaxOvertime;
         Page.Full := "(auto)";
         Page.Version := appVersion;
         Page.Error := EmptyString;
         Page.Result := None;
         Page.ShareDescription := EmptyString |}.
Proof.
  eexists. split; [apply buildCalcURL_pairs |]. split; [reflexivity |].
  unfold Url.ParseQuery. rewrite ParseQuery_join.
  destruct (link_values start length combine normalStart normalEnd minRest
              maxOvertime) as (Hs & Hl & Hc & Hns & Hne & Hmr & Hmo).
  cbv zeta in Hs, Hl, Hc, Hns, Hne, Hmr, Hmo.
  unfold Page.ofQuery. cbn [Page.NormalEnd].
  rewrite Hs, Hl, Hc, Hns, Hne, Hmr, Hmo.
  rewrite !omitted_field by reflexivity.
  rewrite orDefault_nonempty by discriminate.
  f_equal. unfold nonempty.
  destruct (String.eqb_spec combine EmptyString) as [-> | _]; reflexivity.
Qed.

(** * Conversions that are exact *)

(** ** The minutes of a number of hours *)

Lemma iter_xO_value (n k : positive) :
  Z.pos (Pos.iter xO n k) = Z.pos n * 2 ^ Z.pos k.
Proof.
  induction k as [| k IH] using Pos.peano_ind.
  - cbn [Pos.iter]. change (2 ^ 1) with 2. lia.
  - rewrite Pos.iter_succ, Pos2Z.inj_xO, IH, Pos2Z.inj_succ.
    rewrite Z.pow_succ_r by lia. lia.
Qed.

Lemma iter_xO_digits (n k : positive) :
  digits2_pos (Pos.iter xO n k) = (digits2_pos n + k)%positive.
Proof.
  induction k as [| k IH] using Pos.peano_ind.
  - cbn [Pos.iter digits2_pos]. lia.
  - rewrite Pos.iter_succ. cbn [digits2_pos]. rewrite IH. lia.
Qed.

(** A mantissa of 53 bits at an exponent within the range is a float as it
    stands. *)
Lemma binary_round_aux_canonical (s : bool) (m : positive) (e : Z) :
  Z.pos (digits2_pos m) = 53 -> -1074 <= e <= 971 ->
  binary_round_aux prec emax s (Z.pos m) e loc_Exact = S754_finite s m e.
Proof.
  intros Hd He. unfold binary_round_aux, shr_fexp, fexp, SpecFloat.emin.
  cbn [Zdigits2 shr_record_of_loc]. rewrite Hd.
  replace (Z.max (53 + e - prec) (3 - emax - prec) - e) with 0
    by (unfold prec, emax; lia).
  cbn [shr shr_m loc_of_shr_record round_nearest_even Zdigits2
       shr_record_of_loc].
  rewrite Hd.
  replace (Z.max (53 + e - prec) (3 - emax - prec) - e) with 0
    by (unfold prec, emax; lia).
  cbn [shr shr_m].
  replace (e <=? emax - prec) with true
    by (symmetry; apply Z.leb_le; unfold prec, emax; lia).
  reflexivity.
Qed.

(** An integer below [2 ^ 53] is a float, from which [Ftrunc] gives it
    back. *)
Lemma Ftrunc_normalize (s s0 : bool) (n : positive) :
  Z.pos n < 2 ^ 53 ->
  Ftrunc (binary_normalize prec emax (cond_Zopp s (Z.pos n)) 0 s0)
  = cond_Zopp s (Z.pos n) /\
  exists m e, binary_normalize prec emax (cond_Zopp s (Z.pos n)) 0 s0
              = S754_finite s m e.
Proof.
  intros Hn. pose proof (digits2_pos_bounds n) as [Hlo Hhi].
  set (d := Z.pos (digits2_pos n)) in *.
  assert (Hd : 0 < d <= 53).
  { split; [subst d; lia |].
    destruct (Z.le_gt_cases d 53) as [? | Hbig]; [assumption | exfalso].
    assert (2 ^ 53 <= 2 ^ (d - 1)) by (apply Z.pow_le_mono_r; lia). lia. }
  assert (Hround : binary_round prec emax s n 0
                   = S754_finite s
                       (if d =? 53 then n else Pos.iter xO n (Z.to_pos (53 - d)))
                       (d - 53)).
  { unfold binary_round, shl_align, fexp, SpecFloat.emin. fold d.
    replace (Z.max (d + 0 - prec) (3 - emax - prec)) with (d - 53)
      by (unfold prec, emax; lia).
    destruct (Z.eqb_spec d 53) as [E | E].
    - rewrite E. cbn [Z.sub Z.opp Z.add Z.pos_sub].
      replace (53 - 53 - 0) with 0 by lia.
      apply binary_round_aux_canonical; [fold d; lia | lia].
    - destruct (d - 53 - 0) as [| q | q] eqn:Eq; try lia.
      replace (Z.to_pos (53 - d)) with q by lia.
      apply binary_round_aux_canonical; [| lia].
      rewrite iter_xO_digits, Pos2Z.inj_add. fold d. lia. }
  assert (Hnorm : binary_normalize prec emax (cond_Zopp s (Z.pos n)) 0 s0
                  = binary_round prec emax s n 0) by (destruct s; reflexivity).
  rewrite Hnorm, Hround. split; [| eauto].
  unfold Ftrunc. f_equal.
  destruct (Z.eqb_spec d 53) as [E | E].
  - rewrite E. cbn. lia.
  - replace (0 <=? d - 53) with false by (symmetry; apply Z.leb_gt; lia).
    rewrite iter_xO_value. rewrite Z2Pos.id by lia.
    replace (- (d - 53)) with (53 - d) by lia.
    apply Z.div_mul. pose proof (pow2_pos (53 - d) ltac:(lia)). lia.
Qed.

Section Nearest.

Context `{Platform}.

(** X17: when the product of the hours by 60 is a finite float with a
    fraction (a mantissa below [2 ^ 53] at a negative exponent),
    [hoursToMin] is an integer nearest to it, on whatever platform: the
    difference is at most one half, a product half way between two integers
    goes to the one away from zero, and the sign is kept. *)
Theorem hoursToMin_nearest (h : float64) (s : bool) (m : positive) (e : Z) :
  Fmul h (Fconst 60) = S754_finite s m e ->
  Z.pos m < 2 ^ 53 ->
  e < 0 ->
  let d := 2 ^ (- e) in
  let n := hoursToMin h in
  2 * Z.abs (n * d - cond_Zopp s (Z.pos m)) <= d /\
  (2 * (Z.pos m mod d) = d -> Z.abs n = Z.pos m / d + 1) /\
  (if s then n <= 0 else 0 <= n).
Proof.
  intros Hp Hm He. cbv zeta. unfold hoursToMin. rewrite Hp. unfold Round.
  replace (0 <=? e) with false by (symmetry; apply Z.leb_gt; lia).
  pose proof (pow2_pos (- e) ltac:(lia)) as Hd.
  set (d := 2 ^ (- e)) in *.
  assert (Hd2 : 2 <= d).
  { subst d. replace (- e) with (1 + (- e - 1)) by lia.
    rewrite pow2_split by lia. change (2 ^ 1) with 2.
    pose proof (pow2_pos (- e - 1) ltac:(lia)). lia. }
  pose proof (Z.div_mod (Z.pos m) d ltac:(lia)) as Hdm.
  pose proof (Z.mod_pos_bound (Z.pos m) d Hd) as Hr.
  pose proof (Z.div_pos (Z.pos m) d ltac:(lia) Hd) as Hq.
  set (q := Z.pos m / d) in *. set (r := Z.pos m mod d) in *.
  set (n0 := if d <=? 2 * r then q + 1 else q).
  assert (Hn0 : 0 <= n0 < 2 ^ 53 /\ 2 * Z.abs (n0 * d - Z.pos m) <= d /\
                (2 * r = d -> n0 = q + 1)).
  { subst n0. destruct (Z.leb_spec d (2 * r)); repeat split; try nia. }
  destruct Hn0 as (Bn0 & Hnear & Htie).
  assert (Hint : int_of_float
                   (binary_normalize prec emax (cond_Zopp s n0) 0 s)
                 = cond_Zopp s n0).
  { destruct n0 as [| np | np]; [destruct s; reflexivity | | lia].
    destruct (Ftrunc_normalize s s np ltac:(lia)) as (Ht & m' & e' & Hf).
    unfold int_of_float. rewrite Hf. rewrite <- Hf, Ht.
    replace (Int.in_range (cond_Zopp s (Z.pos np))) with true; [reflexivity |].
    symmetry. apply IntFacts.in_range_spec.
    unfold Int.min_int, Int.max_int. destruct s; cbn [cond_Zopp]; lia. }
  rewrite Hint. destruct s; cbn [cond_Zopp]; repeat split; lia.
Qed.

End Nearest.

(** * Properties of the command line *)

(** ** Hours that are not above zero *)

Lemma Fle_zero_not_positive (x : float64) :
  Fle x (Fconst 0) = true -> not_positive x.
Proof.
  rewrite Fconst_0. destruct x as [s | s | | s m e]; simpl; trivial.
  - destruct s; [trivial | discriminate].
  - unfold Fle, Fcompare, Fnum, Fexp. destruct s; [trivial |].
    pose proof (pow2_pos (e - Z.min e 0) ltac:(lia)) as Hp.
    replace (cond_Zopp false (Z.pos m) * 2 ^ (e - Z.min e 0) ?= _) with Gt;
      [discriminate |].
    symmetry. apply Z.compare_gt_iff. simpl cond_Zopp. nia.
Qed.

Lemma binary_round_aux_not_positive (mx ex : Z) (lx : location) :
  not_positive (binary_round_aux prec emax true mx ex lx).
Proof.
  unfold binary_round_aux.
  destruct (shr_fexp prec emax mx ex lx) as [mrs' e'].
  destruct (shr_fexp prec emax _ e' loc_Exact) as [mrs'' e''].
  destruct (shr_m mrs''); [exact I | | exact I].
  destruct (e'' <=? emax - prec); reflexivity.
Qed.

Lemma Fmul_60_not_positive (x : float64) :
  not_positive x -> not_positive (Fmul x (Fconst 60)).
Proof.
  rewrite Fconst_60. unfold Fmul.
  destruct x as [s | s | | s m e]; simpl; trivial.
  - intros ->. reflexivity.
  - intros ->. apply binary_round_aux_not_positive.
Qed.

Lemma Round_not_positive (x : float64) :
  not_positive x -> not_positive (Round x).
Proof.
  destruct x as [s | s | | s m e]; simpl; trivial.
  intros ->. destruct (0 <=? e) eqn:E; [reflexivity |].
  apply Z.leb_gt in E.
  pose proof (pow2_pos (- e) ltac:(lia)) as Hd.
  pose proof (Z.div_pos (Z.pos m) (2 ^ (- e)) ltac:(lia) Hd) as Hq.
  set (n := if _ <=? _ then _ else _).
  assert (Hn : 0 <= n) by (subst n; destruct (_ <=? _); lia).
  unfold cond_Zopp. destruct n as [| p | p]; [exact I | | lia].
  unfold binary_normalize, binary_round. cbn [Z.opp].
  destruct (shl_align _ _ _). apply binary_round_aux_not_positive.
Qed.

Lemma Ftrunc_not_positive (x : float64) : not_positive x -> Ftrunc x <= 0.
Proof.
  destruct x as [s | s | | s m e]; try (intros _; reflexivity).
  intros Hs. cbn in Hs. subst s. unfold Ftrunc, cond_Zopp.
  destruct (0 <=? e) eqn:E.
  - apply Z.leb_le in E. pose proof (pow2_pos e E). nia.
  - apply Z.leb_gt in E.
    pose proof (Z.div_pos (Z.pos m) (2 ^ (- e)) ltac:(lia)
                  (pow2_pos (- e) ltac:(lia))).
    lia.
Qed.

Section CommandLine.

Context `{Platform}.

(** Hours that are [<= 0] and convert exactly give no positive number of
    minutes. *)
Lemma hoursToMin_not_positive (h : float64) :
  exact_minutes h = true -> Fle h (Fconst 0) = true -> hoursToMin h <= 0.
Proof.
  intros He Hh. rewrite (hoursToMin_exact h He).
  apply Ftrunc_not_positive, Round_not_positive, Fmul_60_not_positive,
    Fle_zero_not_positive, Hh.
Qed.

Lemma parseHHMMToMin_blank (s : string) :
  TrimSpace s = EmptyString ->
  parseHHMMToMin s = Err (ErrInvalidTime s).
Proof. intros E. unfold parseHHMMToMin. rewrite E. reflexivity. Qed.

Lemma parseHHMMToMin_error (s : string) (err : error) :
  parseHHMMToMin s = Err err -> err = ErrInvalidTime s.
Proof.
  unfold parseHHMMToMin.
  destruct (split_colon (TrimSpace s)) as [| p0 [| p1 [| ? ?]]];
    try (intros E; injection E as <-; reflexivity).
  destruct (Atoi p0) as [h |]; [| intros E; injection E as <-; reflexivity].
  destruct ((h <? 0) || (h >? 23));
    [intros E; injection E as <-; reflexivity |].
  destruct (Atoi p1) as [m |]; [| intros E; injection E as <-; reflexivity].
  destruct ((m <? 0) || (m >? 59));
    [intros E; injection E as <-; reflexivity | discriminate].
Qed.

Variables (port : Z) (startStr normalStartStr normalEndStr : string).
Variables (lengthH combineH fullH minRestH maxOvertimeH : float64).

(** X18: without the version flag and without a port, the command prints
    what [compute] returns whenever [compute] returns a result (the minimum
    rest converting exactly): the three tests the command makes first reject
    no input that [compute] accepts. *)
Theorem cli_prints_result (r : CalcResult) :
  port <= 0 ->
  exact_minutes minRestH = true ->
  compute startStr lengthH combineH fullH normalStartStr normalEndStr
    minRestH maxOvertimeH = Ok r ->
  Cli.RunE false port startStr lengthH combineH fullH normalStartStr
    normalEndStr minRestH maxOvertimeH
  = Cli.Print (printCLI r).
Proof.
  intros Hport Hexact Hc. unfold Cli.RunE.
  replace (port >? 0) with false
    by (symmetry; rewrite Z.gtb_ltb; apply Z.ltb_ge; lia).
  destruct (String.eqb_spec (TrimSpace startStr) EmptyString) as [E | _].
  { unfold compute in Hc. rewrite (parseHHMMToMin_blank _ E) in Hc.
    discriminate. }
  destruct (Fle lengthH (Fconst 0)) eqn:HL.
  { unfold compute in Hc. rewrite HL in Hc.
    destruct (parseHHMMToMin startStr); discriminate. }
  destruct (Fle minRestH (Fconst 0)) eqn:HR.
  { pose proof (hoursToMin_not_positive minRestH Hexact HR) as Hneg.
    exfalso. unfold compute in Hc. rewrite HL in Hc.
    destruct (parseHHMMToMin startStr); [| discriminate].
    destruct (parseHHMMToMin normalStartStr); [| discriminate].
    destruct (parseHHMMToMin normalEndStr); [| discriminate].
    destruct (Int.sub _ _ <=? 0); [discriminate |].
    replace (hoursToMin minRestH <=? 0) with true in Hc
      by (symmetry; apply Z.leb_le; exact Hneg).
    discriminate. }
  rewrite Hc. reflexivity.
Qed.

(** X19: the test of the release length in [compute] is never the one that
    fails a run of the command: the command makes the same test first, under
    its own message. Of the errors of [compute], the command returns only
    those of the clock strings, the normal day, the minimum rest and the
    overtime cap. *)
Theorem cli_never_compute_length (version : bool) :
  Cli.RunE version port startStr lengthH combineH fullH normalStartStr
    normalEndStr minRestH maxOvertimeH
  <> Cli.Fail (Cli.ErrCompute ErrLength).
Proof.
  unfold Cli.RunE. destruct version; [discriminate |].
  destruct (port >? 0); [discriminate |].
  destruct (String.eqb _ _); [discriminate |].
  destruct (Fle lengthH (Fconst 0)) eqn:HL; [discriminate |].
  destruct (Fle minRestH (Fconst 0)); [discriminate |].
  destruct (compute startStr lengthH combineH fullH normalStartStr
              normalEndStr minRestH maxOvertimeH) as [r | err] eqn:Hc;
    [discriminate |].
  intros E. injection E as ->. unfold compute in Hc. rewrite HL in Hc.
  destruct (parseHHMMToMin startStr) as [rs | err] eqn:Hrs;
    [| rewrite (parseHHMMToMin_error _ _ Hrs) in Hc; discriminate].
  destruct (parseHHMMToMin normalStartStr); [| discriminate].
  destruct (parseHHMMToMin normalEndStr); [| discriminate].
  destruct (Int.sub _ _ <=? 0); [discriminate |].
  destruct (hoursToMin minRestH <=? 0); [discriminate |].
  destruct (hoursToMin maxOvertimeH <? 0); [discriminate |].
  destruct (hoursToMin lengthH >? hoursToMin maxOvertimeH); discriminate.
Qed.

End CommandLine.

(** ** The further properties at concrete inputs *)

Lemma floorDiv_floor_witness :
  (~ (-7 = Int.min_int /\ 2 = -1) -> floorDiv (-7) 2 = -7 / 2) /\
  floorDiv (-7) 0 = 0 /\
  floorDiv Int.min_int (-1) = Int.min_int.
Proof.
  apply (floorDiv_floor (-7) 2). unfold Int.min_int, Int.max_int. lia.
Defined.

Lemma mod_floorDiv_witness :
  mod_ (-7) 1440 = -7 mod 1440 /\
  0 <= mod_ (-7) 1440 < 1440 /\
  -7 = 1440 * floorDiv (-7) 1440 + mod_ (-7) 1440.
Proof.
  apply (mod_floorDiv (-7) 1440); unfold Int.min_int, Int.max_int; lia.
Defined.

Lemma fmtClock_inj_witness :
  (fmtClock 1350 = fmtClock 2790 -> 1350 = 2790) /\
  (fmtRange 1350 (-90) = fmtRange 2790 1350 -> 1350 = 2790 /\ -90 = 1350).
Proof.
  apply (fmtClock_inj 1350 (-90) 2790 1350);
    unfold Int.min_int, Int.max_int; lia.
Defined.

Lemma parse_fmtClock_other_day_witness :
  fmtClock 1500 = "01:00 (+1d)" /\
  parseHHMMToMin (fmtClock 1500) = Err (ErrInvalidTime (fmtClock 1500)).
Proof.
  split; [reflexivity |].
  apply (parse_fmtClock_other_day 1500); unfold Int.min_int, Int.max_int; lia.
Defined.

Lemma fmtHM_same_iff_witness :
  fmtHM 90 = fmtHM (-90) <-> Z.abs 90 = Z.abs (-90).
Proof.
  apply (fmtHM_same_iff 90 (-90)); unfold Int.min_int, Int.max_int; lia.
Defined.

Lemma work_window_full_day_witness :
  exists rs ns ne,
    parseHHMMToMin "20:00" = Ok rs /\
    parseHHMMToMin "09:00" = Ok ns /\
    parseHHMMToMin "17:00" = Ok ne /\
    Forall (fun s => exists workStart workEnd,
                WorkHours s = fmtRange workStart workEnd /\
                TotalWork s
                = fmtRange workStart
                    (Int.add rs (@hoursToMin amd64 (Fconst 5))) /\
                Int.sub workEnd workStart
                = @fullDayUsed amd64 (Fconst 8) (Int.sub ne ns))
      (Scenarios combine_result).
Proof.
  apply (@work_window_full_day amd64 "20:00" "09:00" "17:00" (Fconst 5)
           (Fconst 2) (Fconst 8) (Fconst 11) (Fconst 4) combine_result).
  vm_compute. reflexivity.
Defined.

Lemma scenarioA_ignores_cap_witness :
  exists rs ns ne sA,
    parseHHMMToMin "20:00" = Ok rs /\
    parseHHMMToMin "09:00" = Ok ns /\
    parseHHMMToMin "17:00" = Ok ne /\
    nth_error (Scenarios combine_result) 0 = Some sA /\
    let L := @hoursToMin amd64 (Fconst 5) in
    let F := @fullDayUsed amd64 (Fconst 8) (ne - ns) in
    0 <= L -> 0 <= F ->
    ReleaseIncluded sA = fmtHM (Z.min L F) /\
    Overtime sA = fmtHM (Z.max (L - F) 0) /\
    WorkHours sA
    = fmtRange (Int.sub rs (F - Z.min L F)) (Int.add rs (Z.min L F)).
Proof.
  apply (@scenarioA_ignores_cap amd64 "20:00" "09:00" "17:00" (Fconst 5)
           (Fconst 2) (Fconst 8) (Fconst 11) (Fconst 4) combine_result).
  vm_compute. reflexivity.
Defined.

Lemma scenarioC_full_combine_witness :
  exists r,
    @compute amd64 "20:00" (Fconst 5) (Fconst 6) (Fconst 8) "09:00" "17:00"
      (Fconst 11) (Fconst 4) = Ok r /\
    exists ns ne sA sB sC,
      parseHHMMToMin "09:00" = Ok ns /\
      parseHHMMToMin "17:00" = Ok ne /\
      Scenarios r = [sA; sB; sC] /\
      let L := @hoursToMin amd64 (Fconst 5) in
      let F := @fullDayUsed amd64 (Fconst 8) (ne - ns) in
      0 <= L -> 0 <= F -> Z.min L F <= @hoursToMin amd64 (Fconst 6) ->
      WorkHours sC = WorkHours sA /\
      TotalWork sC = TotalWork sA /\
      ReleaseIncluded sC = ReleaseIncluded sA /\
      Overtime sC = Overtime sA.
Proof.
  eexists. split; [vm_compute; reflexivity |].
  apply (@scenarioC_full_combine amd64 "20:00" "09:00" "17:00" (Fconst 5)
           (Fconst 6) (Fconst 8) (Fconst 11) (Fconst 4));
    vm_compute; reflexivity.
Defined.

Lemma compute_on_echo_witness :
  exists r,
    @compute amd64 " 8:5 " (Fconst 5) (Fconst 2) (Fconst 8) "9:0" "17:00"
      (Fconst 11) (Fconst 4) = Ok r /\
    ReleaseStart r = "08:05" /\
    NormalStart r = "09:00" /\
    parseHHMMToMin (ReleaseStart r) = parseHHMMToMin " 8:5 " /\
    parseHHMMToMin (NormalStart r) = parseHHMMToMin "9:0" /\
    parseHHMMToMin (NormalEnd r) = parseHHMMToMin "17:00" /\
    @compute amd64 (ReleaseStart r) (Fconst 5) (Fconst 2) (Fconst 8)
      (NormalStart r) (NormalEnd r) (Fconst 11) (Fconst 4) = Ok r.
Proof.
  eexists. split; [vm_compute; reflexivity |].
  split; [reflexivity |]. split; [reflexivity |].
  apply (@compute_on_echo amd64 " 8:5 " "9:0" "17:00" (Fconst 5) (Fconst 2)
           (Fconst 8) (Fconst 11) (Fconst 4)).
  vm_compute. reflexivity.
Defined.

Lemma next_day_by_rest_witness :
  let nextStart := calcNextDayStartAbs 1350 540 660 in
  let gap := 1440 - 1350 mod 1440 + 540 in
  1350 / 1440 < nextStart / 1440 /\
  (660 <= gap ->
   nextStart = (1350 / 1440 + 1) * 1440 + 540 /\
   nextStart / 1440 = 1350 / 1440 + 1 /\
   nextStart mod 1440 = 540) /\
  (gap < 660 -> nextStart = 1350 + 660).
Proof.
  apply (next_day_by_rest 1350 540 660);
    unfold Int.min_int, Int.max_int; lia.
Defined.

Lemma buildShareDescription_of_result_witness :
  exists sA sB rest,
    Scenarios combine_result = sA :: sB :: rest /\
    buildShareDescription combine_result
    = "Release " ++ ReleaseStart combine_result ++ arrow
      ++ ReleaseEnd combine_result
      ++ " (" ++ ReleaseLen combine_result ++ "). Work " ++ WorkHours sA
      ++ ". Included " ++ ReleaseIncluded sA ++ ", overtime " ++ Overtime sA
      ++ ". Next day " ++ NextDayHours sA ++ ".".
Proof.
  apply (@buildShareDescription_of_result amd64 "20:00" "09:00" "17:00"
           (Fconst 5) (Fconst 2) (Fconst 8) (Fconst 11) (Fconst 4)
           combine_result).
  vm_compute. reflexivity.
Defined.

Lemma hoursToMin_nearest_witness :
  let h := S754_finite false 4503599627370496 (-55) in
  Fmul h (Fconst 60) = S754_finite false 8444249301319680 (-50) /\
  let d := 2 ^ (- (-50)) in
  let n := @hoursToMin amd64 h in
  2 * Z.abs (n * d - cond_Zopp false 8444249301319680) <= d /\
  (2 * (8444249301319680 mod d) = d -> Z.abs n = 8444249301319680 / d + 1) /\
  0 <= n.
Proof.
  cbv zeta. split; [vm_compute; reflexivity |].
  apply (@hoursToMin_nearest amd64 (S754_finite false 4503599627370496 (-55))
           false 8444249301319680 (-50));
    [vm_compute; reflexivity | reflexivity | reflexivity].
Defined.

Lemma cli_prints_result_witness :
  @Cli.RunE amd64 false 0 "20:00" (Fconst 5) (Fconst 2) (Fconst 8) "09:00"
    "17:00" (Fconst 11) (Fconst 4)
  = Cli.Print (printCLI combine_result).
Proof.
  apply (@cli_prints_result amd64 0 "20:00" "09:00" "17:00" (Fconst 5)
           (Fconst 2) (Fconst 8) (Fconst 11) (Fconst 4) combine_result);
    [lia | vm_compute; reflexivity | vm_compute; reflexivity].
Defined.
